(** * ChessGptt: the heuristic feature bank, checked against its specification

    The repository computes positional heuristics of a chess position with
    the python-chess library ([import chess]).  The development has these
    layers:

    - [Chess]: the part of the library interface the repository calls
      (squares, pieces, the board, attack queries, castling rights, pins,
      legal moves, decoding of board-state strings).  The library is not
      part of the repository; its queries are modelled after sections 4.1
      to 4.3 of the specification;
    - [Features]: the feature functions of [backend/features.py] and
      [features/features.py] (the two files hold the same bodies, once as
      functions and once as methods);
    - [Differ]: feature bundles as Python values, [compare_features] and
      [extract_features] of [features/features.py];
    - [FeatureVectors]: [backend/feature_vectors.py], with the random
      generator as explicit state;
    - [Spec]: the features as the specification words them;
    - the comparison of the two, feature by feature. *)

From Stdlib Require Import QArith ZArith List String Ascii Bool Lia Permutation.
Import ListNotations.
Open Scope Z_scope.

(* ===================================================================== *)
(** * The chess library layer *)
(* ===================================================================== *)

Module Chess.

(** [chess.WHITE = True], [chess.BLACK = False]; [not color] is [negb]. *)
Definition Color := bool.
Definition WHITE : Color := true.
Definition BLACK : Color := false.

Inductive PieceType := PAWN | KNIGHT | BISHOP | ROOK | QUEEN | KING.

Definition PieceType_eqb (a b : PieceType) : bool :=
  match a, b with
  | PAWN, PAWN | KNIGHT, KNIGHT | BISHOP, BISHOP
  | ROOK, ROOK | QUEEN, QUEEN | KING, KING => true
  | _, _ => false
  end.

Record Piece := mkPiece { piece_type : PieceType; color : Color }.

(** A square is a Python [int]; the squares of the board are [0..63],
    [a1 = 0], [h1 = 7], [a8 = 56], [h8 = 63]. *)
Definition Square := Z.

Definition SQUARES : list Square := map Z.of_nat (seq 0 64).

Definition on_board (s : Z) : bool := (0 <=? s) && (s <? 64).

(** [chess.square_file], [chess.square_rank], [chess.square]: no range
    check, exactly [square & 7], [square >> 3], [rank * 8 + file]. *)
Definition square_file (s : Square) : Z := Z.land s 7.
Definition square_rank (s : Square) : Z := Z.shiftr s 3.
Definition square (file rank : Z) : Square := rank * 8 + file.

Definition square_distance (a b : Square) : Z :=
  Z.max (Z.abs (square_file a - square_file b))
        (Z.abs (square_rank a - square_rank b)).

(** The board: piece placement indexed by square, side to move, castling
    rights (the rook squares the FEN grants), en-passant square, counters. *)
Record Board := mkBoard {
  placement : list (option Piece);
  turn : Color;
  castling_rights : list Square;
  ep_square : option Square;
  halfmove_clock : Z;
  fullmove_number : Z
}.

(** [board.piece_at(square)].  Every call in the repository is made with a
    square in [0..63] (loops over [range(8)], or guarded by
    [s < 0 or s >= 64]); outside that range the model answers [None]. *)
Definition piece_at (b : Board) (s : Square) : option Piece :=
  if on_board s then nth (Z.to_nat s) (placement b) None else None.

Definition color_at (b : Board) (s : Square) : option Color :=
  option_map color (piece_at b s).

Definition occupied (b : Board) (s : Square) : bool :=
  match piece_at b s with Some _ => true | None => false end.

Definition is_piece (b : Board) (pt : PieceType) (c : Color) (s : Square) : bool :=
  match piece_at b s with
  | Some p => PieceType_eqb (piece_type p) pt && Bool.eqb (color p) c
  | None => false
  end.

(** [board.pieces(piece_type, color)]: a square set, iterated in ascending
    square order. *)
Definition pieces (b : Board) (pt : PieceType) (c : Color) : list Square :=
  filter (is_piece b pt c) SQUARES.

(** [board.piece_map()]: the occupied squares with their pieces, from the
    highest square down. *)
Definition piece_map (b : Board) : list (Square * Piece) :=
  flat_map (fun s => match piece_at b s with
                     | Some p => [(s, p)]
                     | None => []
                     end) (rev SQUARES).

(** [board.king(color)]: the highest square holding a king of that color,
    [None] when there is none. *)
Definition king (b : Board) (c : Color) : option Square :=
  match rev (pieces b KING c) with
  | k :: _ => Some k
  | [] => None
  end.

(** ** Attack tables and ray casting *)

(** Modelled from the spec: the ray casting of the library's attack tables,
    after section 4.2 ("knights/kings use fixed offset tables;
    bishops/rooks/queens attack along rays until the first occupied square
    inclusive of that square, exclusive of anything beyond it").  [slide]
    walks one ray: it stops at the board edge (the next square leaves
    [0..63] or jumps more than two files or ranks) and after the first
    occupied square. *)
Fixpoint slide (occ : Square -> bool) (delta : Z) (sq : Square) (fuel : nat)
  : list Square :=
  match fuel with
  | O => []
  | S k =>
      let sq' := sq + delta in
      if negb (on_board sq') || (2 <? square_distance sq' sq) then []
      else sq' :: (if occ sq' then [] else slide occ delta sq' k)
  end.

Definition sliding_attacks (occ : Square -> bool) (sq : Square) (deltas : list Z)
  : list Square :=
  flat_map (fun d => slide occ d sq 7) deltas.

Definition step_attacks (sq : Square) (deltas : list Z) : list Square :=
  sliding_attacks (fun _ => true) sq deltas.

Definition BB_KNIGHT_ATTACKS (sq : Square) : list Square :=
  step_attacks sq [17; 15; 10; 6; -17; -15; -10; -6].

Definition BB_KING_ATTACKS (sq : Square) : list Square :=
  step_attacks sq [9; 8; 7; 1; -9; -8; -7; -1].

(** Pawns attack diagonally forward only: white upwards, black downwards. *)
Definition BB_PAWN_ATTACKS (c : Color) (sq : Square) : list Square :=
  step_attacks sq (if c then [7; 9] else [-7; -9]).

Definition mem (s : Square) (l : list Square) : bool := existsb (Z.eqb s) l.

(** Modelled from the spec: the library's [board.attacks(square)], the
    squares attacked by the piece on [sq] under its movement rule of
    section 4.2 (pawns diagonally forward only, knights and kings by their
    tables, bishops, rooks and queens along rays with blockers). *)
Definition attacks (b : Board) (sq : Square) : list Square :=
  match piece_at b sq with
  | None => []
  | Some p =>
      match piece_type p with
      | PAWN => BB_PAWN_ATTACKS (color p) sq
      | KNIGHT => BB_KNIGHT_ATTACKS sq
      | KING => BB_KING_ATTACKS sq
      | BISHOP => sliding_attacks (occupied b) sq [9; 7; -9; -7]
      | ROOK => sliding_attacks (occupied b) sq [8; 1; -8; -1]
      | QUEEN => sliding_attacks (occupied b) sq [9; 7; -9; -7]
                 ++ sliding_attacks (occupied b) sq [8; 1; -8; -1]
      end
  end.

(** Modelled from the spec: the library's [board.attackers(color, square)]
    and [board.is_attacked_by(color, square)], [attackers_of] and
    [is_attacked] of section 4.2: the pieces of [c] that attack [s].  A
    pinned piece still attacks; the square may be empty or hold a piece of
    either color. *)
Definition attacks_square (b : Board) (c : Color) (s t : Square) : bool :=
  match piece_at b t with
  | Some p => Bool.eqb (color p) c && mem s (attacks b t)
  | None => false
  end.

Definition attackers (b : Board) (c : Color) (s : Square) : list Square :=
  filter (attacks_square b c s) SQUARES.

Definition is_attacked_by (b : Board) (c : Color) (s : Square) : bool :=
  existsb (attacks_square b c s) SQUARES.

(** ** Castling rights *)

(** Modelled from the spec: the library's [board.has_castling_rights(color)],
    the per-color castling-rights flags of section 3.  Some right on the
    color's back rank survives [clean_castling_rights], which keeps a right
    only while a rook of that color stands on the corner and the king on
    its e-file square. *)
Definition clean_castling_rights (b : Board) : list Square :=
  filter (fun r =>
            (is_piece b ROOK WHITE r && ((r =? 0) || (r =? 7))
               && is_piece b KING WHITE 4)
            || (is_piece b ROOK BLACK r && ((r =? 56) || (r =? 63))
               && is_piece b KING BLACK 60))
         (castling_rights b).

Definition has_castling_rights (b : Board) (c : Color) : bool :=
  existsb (fun r => square_rank r =? (if c then 0 else 7))
          (clean_castling_rights b).

(** ** Decoding a board-state string

    [chess.Board(fen)] in the source, [decode] of section 4.1: six
    space-separated fields; [None] stands for the [ValueError] raised on
    malformed input. *)
Definition piece_of_symbol (c : ascii) : option Piece :=
  match c with
  | "P"%char => Some (mkPiece PAWN WHITE)
  | "N"%char => Some (mkPiece KNIGHT WHITE)
  | "B"%char => Some (mkPiece BISHOP WHITE)
  | "R"%char => Some (mkPiece ROOK WHITE)
  | "Q"%char => Some (mkPiece QUEEN WHITE)
  | "K"%char => Some (mkPiece KING WHITE)
  | "p"%char => Some (mkPiece PAWN BLACK)
  | "n"%char => Some (mkPiece KNIGHT BLACK)
  | "b"%char => Some (mkPiece BISHOP BLACK)
  | "r"%char => Some (mkPiece ROOK BLACK)
  | "q"%char => Some (mkPiece QUEEN BLACK)
  | "k"%char => Some (mkPiece KING BLACK)
  | _ => None
  end.

Definition digit_of (c : ascii) : option nat :=
  let n := nat_of_ascii c in
  if ((48 <=? n) && (n <=? 57))%nat then Some (n - 48)%nat else None.

Fixpoint split_on (sep : ascii) (cs : list ascii) : list (list ascii) :=
  match cs with
  | [] => [[]]
  | c :: rest =>
      let r := split_on sep rest in
      if Ascii.eqb c sep then [] :: r
      else match r with
           | x :: xs => (c :: x) :: xs
           | [] => [[c]]
           end
  end.

(** One rank of the placement field: digits [1..8] are runs of empty
    squares (never two digits in a row), letters are pieces. *)
Fixpoint parse_rank (cs : list ascii) (prev_digit : bool)
  : option (list (option Piece)) :=
  match cs with
  | [] => Some []
  | c :: rest =>
      match digit_of c with
      | Some n =>
          if prev_digit || (n =? 0)%nat || (8 <? n)%nat then None
          else option_map (app (repeat None n)) (parse_rank rest true)
      | None =>
          match piece_of_symbol c with
          | Some p => option_map (cons (Some p)) (parse_rank rest false)
          | None => None
          end
      end
  end.

Definition parse_rank8 (cs : list ascii) : option (list (option Piece)) :=
  match parse_rank cs false with
  | Some row => if (List.length row =? 8)%nat then Some row else None
  | None => None
  end.

(** The ranks come from rank 8 down to rank 1; the placement list starts
    at [a1]. *)
Fixpoint parse_ranks (rows : list (list ascii)) : option (list (option Piece)) :=
  match rows with
  | [] => Some []
  | r :: rest =>
      match parse_rank8 r, parse_ranks rest with
      | Some row, Some below => Some (below ++ row)
      | _, _ => None
      end
  end.

Definition parse_placement (cs : list ascii) : option (list (option Piece)) :=
  let rows := split_on "/"%char cs in
  if (List.length rows =? 8)%nat then parse_ranks rows else None.

Definition parse_turn (cs : list ascii) : option Color :=
  match cs with
  | ["w"%char] => Some WHITE
  | ["b"%char] => Some BLACK
  | _ => None
  end.

Fixpoint parse_castling_flags (cs : list ascii) : option (list Square) :=
  match cs with
  | [] => Some []
  | c :: rest =>
      let right :=
        match c with
        | "K"%char => Some 7
        | "Q"%char => Some 0
        | "k"%char => Some 63
        | "q"%char => Some 56
        | _ => None
        end in
      match right, parse_castling_flags rest with
      | Some r, Some rs => Some (r :: rs)
      | _, _ => None
      end
  end.

Definition parse_castling (cs : list ascii) : option (list Square) :=
  match cs with
  | ["-"%char] => Some []
  | [] => None
  | _ => parse_castling_flags cs
  end.

Definition parse_ep (cs : list ascii) : option (option Square) :=
  match cs with
  | ["-"%char] => Some None
  | [f; r] =>
      let fi := Z.of_nat (nat_of_ascii f) - 97 in
      let ri := Z.of_nat (nat_of_ascii r) - 49 in
      if (0 <=? fi) && (fi <? 8) && (0 <=? ri) && (ri <? 8)
      then Some (Some (square fi ri)) else None
  | _ => None
  end.

Fixpoint parse_digits (cs : list ascii) (acc : Z) : option Z :=
  match cs with
  | [] => Some acc
  | c :: rest =>
      match digit_of c with
      | Some d => parse_digits rest (acc * 10 + Z.of_nat d)
      | None => None
      end
  end.

Definition parse_counter (cs : list ascii) : option Z :=
  match cs with
  | [] => None
  | _ => parse_digits cs 0
  end.

(** Modelled from the spec: the library's [chess.Board(fen)], the Board
    Codec of section 4.1 (piece placement by rank from rank 8 down to rank
    1, side to move, castling rights, en-passant square or none, halfmove
    clock, fullmove number). *)
Definition decode (fen : string) : option Board :=
  match split_on " "%char (list_ascii_of_string fen) with
  | [pl; tn; ca; ep; hm; fm] =>
      match parse_placement pl, parse_turn tn, parse_castling ca,
            parse_ep ep, parse_counter hm, parse_counter fm with
      | Some p, Some t, Some c, Some e, Some h, Some f =>
          Some (mkBoard p t c e h (Z.max f 1))
      | _, _, _, _, _, _ => None
      end
  | _ => None
  end.

(** ** Pins *)

Definition last_square (l : list Square) : option Square :=
  match rev l with
  | x :: _ => Some x
  | [] => None
  end.

Definition direction (k s : Square) : option Z :=
  let df := square_file s - square_file k in
  let dr := square_rank s - square_rank k in
  if (df =? 0) && (dr =? 0) then None
  else if df =? 0 then Some (8 * Z.sgn dr)
  else if dr =? 0 then Some (Z.sgn df)
  else if Z.abs df =? Z.abs dr then Some (8 * Z.sgn dr + Z.sgn df)
  else None.

Definition is_sniper (b : Board) (c : Color) (delta : Z) (t : Square) : bool :=
  match piece_at b t with
  | Some p =>
      negb (Bool.eqb (color p) c)
      && match piece_type p with
         | QUEEN => true
         | ROOK => (Z.abs delta =? 8) || (Z.abs delta =? 1)
         | BISHOP => (Z.abs delta =? 9) || (Z.abs delta =? 7)
         | _ => false
         end
  | None => false
  end.

(** Modelled from the spec: the library's [board.is_pinned(color, square)],
    [is_pinned] of section 4.2.  The king of [c] and [square] share a file,
    rank or diagonal, every square strictly between them is empty, and the
    first piece behind [square] on that line is an enemy rook or queen
    (file, rank) or an enemy bishop or queen (diagonal).  Without a king
    nothing is pinned. *)
Definition is_pinned (b : Board) (c : Color) (s : Square) : bool :=
  match king b c with
  | None => false
  | Some k =>
      match direction k s with
      | None => false
      | Some delta =>
          match last_square (slide (fun t => occupied b t || (t =? s)) delta k 7) with
          | Some t =>
              (t =? s)
              && match last_square (slide (occupied b) delta s 7) with
                 | Some u => is_sniper b c delta u
                 | None => false
                 end
          | None => false
          end
      end
  end.

(** ** Moves

    [board.legal_moves] in the source, the Move Generator of section 4.3:
    pseudo-legal moves per origin square, kept when the mover's king is not
    attacked once the move is made. *)
Record Move := mkMove {
  from_square : Square;
  to_square : Square;
  promotion : option PieceType
}.

Definition is_empty (b : Board) (s : Square) : bool :=
  on_board s && negb (occupied b s).

Definition has_color (b : Board) (c : Color) (s : Square) : bool :=
  match piece_at b s with
  | Some p => Bool.eqb (color p) c
  | None => false
  end.

(** A pawn move to the last rank is one move per promotion piece. *)
Definition pawn_moves_to (s t : Square) : list Move :=
  if (square_rank t =? 0) || (square_rank t =? 7)
  then map (fun pt => mkMove s t (Some pt)) [QUEEN; ROOK; BISHOP; KNIGHT]
  else [mkMove s t None].

(** Single push onto an empty square, double push from the starting rank
    over two empty squares, diagonal captures of enemy pieces, en-passant
    capture onto the recorded target square. *)
Definition pawn_targets (b : Board) (c : Color) (s : Square) : list Square :=
  let fwd := if c then 8 else -8 in
  let start_rank := if c then 1 else 6 in
  let ep_rank := if c then 4 else 3 in
  let captures := filter (has_color b (negb c)) (BB_PAWN_ATTACKS c s) in
  let single := if is_empty b (s + fwd) then [s + fwd] else [] in
  let double :=
    if (square_rank s =? start_rank) && is_empty b (s + fwd)
       && is_empty b (s + 2 * fwd)
    then [s + 2 * fwd] else [] in
  let en_passant :=
    match ep_square b with
    | Some e =>
        if is_empty b e && (square_rank s =? ep_rank)
           && mem e (BB_PAWN_ATTACKS c s)
        then [e] else []
    | None => []
    end in
  captures ++ single ++ double ++ en_passant.

(** Castling, written as the king's two-square move: the right is still
    held, the squares between king and rook are empty, and the king neither
    stands on, passes through nor lands on an attacked square. *)
Definition castling_targets (b : Board) (c : Color) (s : Square) : list Square :=
  let home := if c then 4 else 60 in
  let safe t := negb (is_attacked_by b (negb c) t) in
  if s =? home then
    (if mem (home + 3) (clean_castling_rights b)
        && is_empty b (home + 1) && is_empty b (home + 2)
        && safe home && safe (home + 1) && safe (home + 2)
     then [home + 2] else [])
    ++
    (if mem (home - 4) (clean_castling_rights b)
        && is_empty b (home - 1) && is_empty b (home - 2)
        && is_empty b (home - 3)
        && safe home && safe (home - 1) && safe (home - 2)
     then [home - 2] else [])
  else [].

Definition piece_moves (b : Board) (s : Square) (p : Piece) : list Move :=
  match piece_type p with
  | PAWN => flat_map (pawn_moves_to s) (pawn_targets b (color p) s)
  | KING =>
      map (fun t => mkMove s t None)
          (filter (fun t => negb (has_color b (color p) t)) (attacks b s)
           ++ castling_targets b (color p) s)
  | _ =>
      map (fun t => mkMove s t None)
          (filter (fun t => negb (has_color b (color p) t)) (attacks b s))
  end.

Definition moves_from (b : Board) (s : Square) : list Move :=
  match piece_at b s with
  | Some p => if Bool.eqb (color p) (turn b) then piece_moves b s p else []
  | None => []
  end.

(** Modelled from the spec: phase 1 of the Move Generator of section 4.3,
    the pseudo-legal moves of the pieces of the side to move, by origin
    square. *)
Definition pseudo_legal_moves (b : Board) : list Move :=
  flat_map (moves_from b) SQUARES.

(** The placement once [m] is made: the mover leaves its square and lands
    (promoted if asked) on the target; an en-passant capture also removes
    the pawn behind the target, a castling king brings its rook along. *)
Definition piece_after (b : Board) (m : Move) (s : Square) : option Piece :=
  let f := from_square m in
  let t := to_square m in
  match piece_at b f with
  | None => piece_at b s
  | Some p =>
      let c := color p in
      let is_pawn := PieceType_eqb (piece_type p) PAWN in
      let is_king := PieceType_eqb (piece_type p) KING in
      let ep_capture :=
        is_pawn && negb (square_file f =? square_file t) && negb (occupied b t) in
      let castle_k := is_king && (t - f =? 2) in
      let castle_q := is_king && (f - t =? 2) in
      if s =? t then
        match promotion m with
        | Some pt => Some (mkPiece pt c)
        | None => Some p
        end
      else if s =? f then None
      else if ep_capture && (s =? (if c then t - 8 else t + 8)) then None
      else if castle_k && (s =? f + 3) then None
      else if castle_k && (s =? f + 1) then piece_at b (f + 3)
      else if castle_q && (s =? f - 4) then None
      else if castle_q && (s =? f - 1) then piece_at b (f - 4)
      else piece_at b s
  end.

(** The position after the move, as far as the legality filter reads it:
    placement and side to move. *)
Definition after_move (b : Board) (m : Move) : Board :=
  mkBoard (map (piece_after b m) SQUARES) (negb (turn b))
          (castling_rights b) None (halfmove_clock b) (fullmove_number b).

(** Modelled from the spec: [in_check(position, color)] of section 4.2,
    [is_attacked(position, king_square(color), opposite(color))]; a side
    without a king is never in check. *)
Definition in_check (b : Board) (c : Color) : bool :=
  match king b c with
  | Some k => is_attacked_by b (negb c) k
  | None => false
  end.

Definition is_check (b : Board) : bool := in_check b (turn b).

Definition is_legal (b : Board) (m : Move) : bool :=
  negb (in_check (after_move b m) (turn b)).

(** Modelled from the spec: the library's [board.legal_moves], phase 2 of
    the Move Generator of section 4.3: "a pseudo-legal move is legal iff
    applying it produces a Position in which the moving side's king is not
    in check". *)
Definition legal_moves (b : Board) : list Move :=
  filter (is_legal b) (pseudo_legal_moves b).

End Chess.

(* ===================================================================== *)
(** * The feature bank ([backend/features.py], [features/features.py]) *)
(* ===================================================================== *)

Module Features.
Import Chess.

(** Python idioms used by the feature functions. *)

(** [range(a, b)] *)
Definition range (a b : Z) : list Z :=
  map (fun i => a + Z.of_nat i) (seq 0 (Z.to_nat (b - a))).

(** [sum(...)] over integers; a Python [bool] sums as [0] or [1]. *)
Definition py_sum (l : list Z) : Z := fold_left Z.add l 0.
Definition b2z (x : bool) : Z := if x then 1 else 0.

(** The loop [n = 0; for x in l: if f(x): n += 1], also
    [sum(1 for x in l if f(x))]. *)
Definition count_if {A : Type} (f : A -> bool) (l : list A) : Z :=
  fold_left (fun n x => if f x then n + 1 else n) l 0.

(** [set(l)]: the distinct elements (sums and counts over a set do not
    depend on its iteration order). *)
Definition set_of (l : list Z) : list Z := nodup Z.eq_dec l.

(** [l.count(x)] *)
Definition count (l : list Z) (x : Z) : Z := Z.of_nat (count_occ Z.eq_dec l x).

(** [s1 | s2] on square sets. *)
Definition sq_union (l1 l2 : list Square) : list Square :=
  filter (fun s => mem s l1 || mem s l2) SQUARES.

Definition piece_values (pt : PieceType) : Z :=
  match pt with
  | PAWN => 1
  | KNIGHT => 3
  | BISHOP => 3
  | ROOK => 5
  | QUEEN => 9
  | KING => 0
  end.

Definition get_material (b : Board) : Z * Z :=
  fold_left
    (fun (acc : Z * Z) sq =>
       let (white_material, black_material) := acc in
       match piece_at b sq with
       | Some piece =>
           let val := piece_values (piece_type piece) in
           if Bool.eqb (color piece) WHITE
           then (white_material + val, black_material)
           else (white_material, black_material + val)
       | None => acc
       end)
    SQUARES (0, 0).

Definition get_mobility (b : Board) : Z :=
  Z.of_nat (List.length (legal_moves b)).

(** [None] is the [TypeError] of [chess.BB_KING_ATTACKS[None]] on a board
    without a king of that color. *)
Definition get_king_safety (b : Board) (c : Color) : option string :=
  match king b c with
  | None => None
  | Some king_sq =>
      let castled := negb (has_castling_rights b c) in
      let unsafe :=
        count_if (fun sq => is_attacked_by b (negb c) sq)
                 (BB_KING_ATTACKS king_sq) in
      Some (if (unsafe <=? 2) && castled then "Safe"%string else "Exposed"%string)
  end.

Record PawnStructure := mkPawnStructure {
  doubled : Z;
  isolated : Z;
  passed : Z
}.

(** The inner loop of the passed-pawn count: [blocked] becomes true when
    some square of the pawn's file on a rank above it holds a piece of the
    other color. *)
Definition blocked_ahead (b : Board) (c : Color) (sq : Square) : bool :=
  let rank := square_rank sq in
  let file := square_file sq in
  fold_left
    (fun blocked ahead =>
       let front := square file ahead in
       match piece_at b front with
       | Some p => if negb (Bool.eqb (color p) c) then true else blocked
       | None => blocked
       end)
    (range (rank + 1) 8) false.

Definition get_pawn_structure (b : Board) (c : Color) : PawnStructure :=
  let pawns := pieces b PAWN c in
  let files := map square_file pawns in
  let doubled := py_sum (map (fun f => b2z (1 <? count files f)) (set_of files)) in
  let isolated :=
    py_sum (map (fun f =>
                   b2z (forallb (fun other => 1 <? Z.abs (f - other))
                                (filter (fun other => negb (other =? f))
                                        (set_of files))))
                (set_of files)) in
  let passed := count_if (fun sq => negb (blocked_ahead b c sq)) pawns in
  mkPawnStructure doubled isolated passed.

Definition center : list Square := [27; 35; 28; 36].

Definition get_center_control (b : Board) (c : Color) : Z :=
  py_sum (map (fun sq => b2z (is_attacked_by b c sq)) center).

Definition get_development (b : Board) (c : Color) : Z :=
  let minors := sq_union (pieces b KNIGHT c) (pieces b BISHOP c) in
  count_if (fun sq =>
              let rank := square_rank sq in
              (Bool.eqb c WHITE && (0 <? rank)) || (Bool.eqb c BLACK && (rank <? 7)))
           minors.

(** [any(board.piece_at(chess.square(file, rank)) and ... == chess.PAWN
    for rank in range(8))] *)
Definition pawn_on_file (b : Board) (file : Z) : bool :=
  existsb (fun rank =>
             match piece_at b (square file rank) with
             | Some p => PieceType_eqb (piece_type p) PAWN
             | None => false
             end)
          (range 0 8).

Definition get_rook_activity (b : Board) (c : Color) : Z :=
  count_if (fun r => negb (pawn_on_file b (square_file r))) (pieces b ROOK c).

Definition get_hanging_pieces (b : Board) (c : Color) : Z :=
  count_if (fun sp : Square * Piece =>
              let (sq, piece) := sp in
              Bool.eqb (color piece) c
              && (negb (is_attacked_by b c sq) && is_attacked_by b (negb c) sq))
           (piece_map b).

Definition color_is (oc : option Color) (c : Color) : bool :=
  match oc with
  | Some c' => Bool.eqb c' c
  | None => false
  end.

Definition get_piece_activity (b : Board) (c : Color) : Z :=
  count_if (fun move => color_is (color_at b (from_square move)) c)
           (legal_moves b).

Definition get_piece_coordination (b : Board) (c : Color) : Z :=
  count_if (fun sp : Square * Piece =>
              let (sq, piece) := sp in
              Bool.eqb (color piece) c && is_attacked_by b c sq)
           (piece_map b).

Definition get_bishop_pair_bonus (b : Board) (c : Color) : Z :=
  if (2 <=? List.length (pieces b BISHOP c))%nat then 1 else 0.

Definition get_open_file_control (b : Board) (c : Color) : Z :=
  fold_left
    (fun controlled piece_type =>
       fold_left
         (fun controlled sq =>
            if negb (pawn_on_file b (square_file sq)) then controlled + 1
            else controlled)
         (pieces b piece_type c) controlled)
    [ROOK; QUEEN] 0.

Definition get_space_advantage (b : Board) (c : Color) : Z :=
  let half_ranks := if Bool.eqb c WHITE then range 4 8 else range 0 4 in
  fold_left
    (fun control rank =>
       fold_left
         (fun control file =>
            if is_attacked_by b c (square file rank) then control + 1 else control)
         (range 0 8) control)
    half_ranks 0.

Definition get_weak_squares (b : Board) (c : Color) : Z :=
  count_if (fun sq => negb (is_attacked_by b c sq) && negb (occupied b sq)) center.

Definition get_outposts (b : Board) (c : Color) : Z :=
  fold_left
    (fun outposts n =>
       fold_left
         (fun outposts sq =>
            if negb (is_attacked_by b (negb c) sq) then outposts + 1 else outposts)
         (BB_KNIGHT_ATTACKS n) outposts)
    (pieces b KNIGHT c) 0.

Definition get_pinned_pieces (b : Board) (c : Color) : Z :=
  count_if (fun sq => is_pinned b c sq)
           (sq_union
              (sq_union
                 (sq_union
                    (sq_union (pieces b PAWN c) (pieces b KNIGHT c))
                    (pieces b BISHOP c))
                 (pieces b ROOK c))
              (pieces b QUEEN c)).

Record Balance := mkBalance {
  attacked : Z;
  defended : Z
}.

Definition get_attacked_vs_defended_balance (b : Board) (c : Color) : Balance :=
  let (attacked, defended) :=
    fold_left
      (fun (acc : Z * Z) (sp : Square * Piece) =>
         let (attacked, defended) := acc in
         let (sq, piece) := sp in
         let attacked := if is_attacked_by b (negb c) sq then attacked + 1 else attacked in
         let defended := if is_attacked_by b c sq then defended + 1 else defended in
         (attacked, defended))
      (piece_map b) (0, 0) in
  mkBalance attacked defended.

Definition get_castling_status (b : Board) (c : Color) : bool :=
  has_castling_rights b c.

Definition get_king_zone_control (b : Board) (c : Color) : option Z :=
  match king b c with
  | None => None
  | Some king_sq =>
      let zone := BB_KING_ATTACKS king_sq in
      Some (py_sum (map (fun sq => b2z (is_attacked_by b c sq)) zone))
  end.

Definition get_rook_on_7th_rank (b : Board) (c : Color) : Z :=
  let rank := if Bool.eqb c WHITE then 6 else 1 in
  count_if (fun sq => square_rank sq =? rank) (pieces b ROOK c).

Definition get_connected_rooks (b : Board) (c : Color) : Z :=
  match pieces b ROOK c with
  | [r0; r1] =>
      if is_attacked_by b c r0 && is_attacked_by b c r1 then 1 else 0
  | _ => 0
  end.

Definition get_passed_pawn_advancement (b : Board) (c : Color) : Z :=
  fold_left
    (fun advancement sq =>
       if negb (existsb
                  (fun r =>
                     match piece_at b (square (square_file sq) r) with
                     | Some p => negb (Bool.eqb (color p) c)
                     | None => false
                     end)
                  (range (square_rank sq + 1) 8))
       then advancement + square_rank sq
       else advancement)
    (pieces b PAWN c) 0.

(** [None] is the [TypeError] of [chess.square_rank(None)]. *)
Definition get_pawn_shield (b : Board) (c : Color) : option Z :=
  match king b c with
  | None => None
  | Some king_sq =>
      let rank := square_rank king_sq in
      let file := square_file king_sq in
      let front_rank := if Bool.eqb c WHITE then rank + 1 else rank - 1 in
      let files := [file - 1; file; file + 1] in
      Some (count_if
              (fun f =>
                 ((0 <=? f) && (f <? 8)) && ((0 <=? front_rank) && (front_rank <? 8))
                 && match piece_at b (square f front_rank) with
                    | Some piece =>
                        Bool.eqb (color piece) c
                        && PieceType_eqb (piece_type piece) PAWN
                    | None => false
                    end)
              files)
  end.

(** The test [s < 0 or s >= 64 or not board.piece_at(s) or
    board.piece_at(s).piece_type != chess.PAWN] on one supporter square. *)
Definition no_supporter (b : Board) (s : Square) : bool :=
  (s <? 0) || (64 <=? s)
  || match piece_at b s with
     | None => true
     | Some p => negb (PieceType_eqb (piece_type p) PAWN)
     end.

Definition supporters (c : Color) (p : Square) : list Square :=
  let file := square_file p in
  let rank := square_rank p in
  if Bool.eqb c BLACK
  then [square (file - 1) (rank + 1); square (file + 1) (rank + 1)]
  else [square (file - 1) (rank - 1); square (file + 1) (rank - 1)].

Definition get_backward_pawns (b : Board) (c : Color) : Z :=
  count_if (fun p => forallb (no_supporter b) (supporters c p)) (pieces b PAWN c).

Definition get_isolated_weakness_clusters (b : Board) (c : Color) : Z :=
  let pawns := pieces b PAWN c in
  let files := map square_file pawns in
  count_if (fun f =>
              forallb (fun other => 1 <? Z.abs (f - other))
                      (filter (fun other => negb (other =? f)) (set_of files)))
           (set_of files).

End Features.


(* ===================================================================== *)
(** * Feature bundles and the position differ ([features/features.py]) *)
(* ===================================================================== *)

Module Differ.
Import Chess Features.

(** The Python values a bundle is made of: integers, booleans, strings and
    dictionaries.  A dictionary is the list of its items in insertion
    order. *)
#[local] Set Warnings "-register-all".
Inductive pyval :=
| VInt (n : Z)
| VBool (x : bool)
| VStr (s : string)
| VDict (d : list (string * pyval)).

Definition dict := list (string * pyval).

(** [d[key]] on a dictionary that holds [key] *)
Fixpoint lookup (key : string) (d : dict) : option pyval :=
  match d with
  | [] => None
  | (k, v) :: rest => if String.eqb k key then Some v else lookup key rest
  end.

(** [d[key] = v]: the value is replaced where the key is, a new key goes
    to the end. *)
Fixpoint dict_set (key : string) (v : pyval) (d : dict) : dict :=
  match d with
  | [] => [(key, v)]
  | (k, w) :: rest =>
      if String.eqb k key then (k, v) :: rest else (k, w) :: dict_set key v rest
  end.

(** [key in s] on a string: [key] occurs in [s]. *)
Fixpoint is_substring (key s : string) : bool :=
  String.prefix key s
  || match s with
     | EmptyString => false
     | String _ s' => is_substring key s'
     end.

(** [key in f1]; [None] is the [TypeError] on a number. *)
Definition py_contains (f1 : pyval) (key : string) : option bool :=
  match f1 with
  | VDict d => Some (match lookup key d with Some _ => true | None => false end)
  | VStr s => Some (is_substring key s)
  | VInt _ | VBool _ => None
  end.

(** [f1[key]]; [None] is the [TypeError] on a string or a number (on a
    dictionary the key is present: the lookup follows [key in f1]). *)
Definition py_getitem (f1 : pyval) (key : string) : option pyval :=
  match f1 with
  | VDict d => lookup key d
  | _ => None
  end.

(** [val1 != val2] for a [val2] that is no dictionary: numbers compare by
    value ([True == 1]), strings by content, values of different kinds are
    unequal. *)
Definition py_ne (val1 val2 : pyval) : bool :=
  match val1, val2 with
  | VInt a, VInt b => negb (a =? b)
  | VInt a, VBool y => negb (a =? b2z y)
  | VBool x, VInt b => negb (b2z x =? b)
  | VBool x, VBool y => negb (Bool.eqb x y)
  | VStr s, VStr t => negb (String.eqb s t)
  | _, _ => true
  end.

Definition nonempty (d : dict) : bool :=
  match d with
  | [] => false
  | _ :: _ => true
  end.

(** The loop [for key in f2] of [compare_features], with [diff] as the
    accumulator and [rec] the recursive call. *)
Definition compare_loop (rec : pyval -> pyval -> option dict) (f1 : pyval)
  : dict -> dict -> option dict :=
  fix go (items diff : dict) : option dict :=
    match items with
    | [] => Some diff
    | (key, val2) :: rest =>
        match py_contains f1 key with
        | None => None
        | Some false => go rest (dict_set key val2 diff)
        | Some true =>
            match py_getitem f1 key with
            | None => None
            | Some val1 =>
                match val2 with
                | VDict _ =>
                    match rec val1 val2 with
                    | None => None
                    | Some sub_diff =>
                        go rest (if nonempty sub_diff
                                 then dict_set key (VDict sub_diff) diff
                                 else diff)
                    end
                | _ =>
                    go rest (if py_ne val1 val2
                             then dict_set key val2 diff
                             else diff)
                end
            end
        end
    end.

(** [compare_features(f1, f2)] with [f2] a dictionary, as at every call of
    the source; [None] is a raised [TypeError]. *)
Fixpoint compare_value (f1 f2 : pyval) {struct f2} : option dict :=
  match f2 with
  | VDict d2 => compare_loop compare_value f1 d2 []
  | _ => None
  end.

Definition compare_features (f1 : pyval) (f2 : dict) : option dict :=
  compare_value f1 (VDict f2).

(** ** The bundle *)

Definition bind {A B : Type} (x : option A) (k : A -> option B) : option B :=
  match x with
  | Some a => k a
  | None => None
  end.

Notation "x <- e ;; k" := (bind e (fun x => k))
  (at level 61, e at next level, right associativity).

Definition per_color (white black : pyval) : pyval :=
  VDict [("white"%string, white); ("black"%string, black)].

Definition ints (f : Board -> Color -> Z) (b : Board) : pyval :=
  per_color (VInt (f b WHITE)) (VInt (f b BLACK)).

Definition pawn_structure_value (p : PawnStructure) : pyval :=
  VDict [("doubled"%string, VInt (doubled p));
         ("isolated"%string, VInt (isolated p));
         ("passed"%string, VInt (passed p))].

Definition balance_value (x : Balance) : pyval :=
  VDict [("attacked"%string, VInt (attacked x));
         ("defended"%string, VInt (defended x))].

(** [_extract_all_features(board)]: the dictionary literal is evaluated
    entry by entry; the first feature that raises ends the extraction. *)
Definition _extract_all_features (b : Board) : option dict :=
  let (white_material, black_material) := get_material b in
  let mobility := get_mobility b in
  ks_w <- get_king_safety b WHITE ;;
  ks_b <- get_king_safety b BLACK ;;
  kz_w <- get_king_zone_control b WHITE ;;
  kz_b <- get_king_zone_control b BLACK ;;
  sh_w <- get_pawn_shield b WHITE ;;
  sh_b <- get_pawn_shield b BLACK ;;
  Some
    [("material", per_color (VInt white_material) (VInt black_material));
     ("mobility", VInt mobility);
     ("king_safety", per_color (VStr ks_w) (VStr ks_b));
     ("pawn_structure",
      per_color (pawn_structure_value (get_pawn_structure b WHITE))
                (pawn_structure_value (get_pawn_structure b BLACK)));
     ("center_control", ints get_center_control b);
     ("development", ints get_development b);
     ("rook_activity", ints get_rook_activity b);
     ("threats", ints get_hanging_pieces b);
     ("piece_activity", ints get_piece_activity b);
     ("piece_coordination", ints get_piece_coordination b);
     ("bishop_pair_bonus", ints get_bishop_pair_bonus b);
     ("open_file_control", ints get_open_file_control b);
     ("space_advantage", ints get_space_advantage b);
     ("weak_squares", ints get_weak_squares b);
     ("outposts", ints get_outposts b);
     ("pinned_pieces", ints get_pinned_pieces b);
     ("attacked_vs_defended",
      per_color (balance_value (get_attacked_vs_defended_balance b WHITE))
                (balance_value (get_attacked_vs_defended_balance b BLACK)));
     ("castling_status",
      per_color (VBool (get_castling_status b WHITE))
                (VBool (get_castling_status b BLACK)));
     ("king_zone_control", per_color (VInt kz_w) (VInt kz_b));
     ("rook_on_7th_rank", ints get_rook_on_7th_rank b);
     ("connected_rooks", ints get_connected_rooks b);
     ("passed_pawn_advancement", ints get_passed_pawn_advancement b);
     ("pawn_shield", per_color (VInt sh_w) (VInt sh_b));
     ("backward_pawns", ints get_backward_pawns b);
     ("isolated_weakness_clusters", ints get_isolated_weakness_clusters b)]%string.

(** [extract_features(curr, prev=None)]: [if prev] holds for a non-empty
    string. *)
Definition truthy (prev : option string) : option string :=
  match prev with
  | Some EmptyString => None
  | other => other
  end.

Definition extract_features (curr : string) (prev : option string) : option dict :=
  board2 <- decode curr ;;
  features2 <- _extract_all_features board2 ;;
  match truthy prev with
  | Some p =>
      board1 <- decode p ;;
      features1 <- _extract_all_features board1 ;;
      compare_features (VDict features1) features2
  | None => Some features2
  end.

(** A dictionary has each key once, at every level. *)
Fixpoint distinct (l : list string) : bool :=
  match l with
  | [] => true
  | k :: rest => negb (existsb (String.eqb k) rest) && distinct rest
  end.

Fixpoint well_formed (v : pyval) : bool :=
  match v with
  | VDict d =>
      distinct (map fst d)
      && (fix all (items : dict) : bool :=
            match items with
            | [] => true
            | (_, w) :: rest => well_formed w && all rest
            end) d
  | _ => true
  end.

(** What the differ does on a value against itself. *)
Definition unchanged (v : pyval) : Prop :=
  well_formed v = true ->
  match v with
  | VDict _ => compare_value v v = Some []
  | _ => py_ne v v = false
  end.

End Differ.

(* ===================================================================== *)
(** * The feature vector ([backend/feature_vectors.py]) *)
(* ===================================================================== *)

Module FeatureVectors.
Import Chess.

(** ** The random generator

    [np.random.rand()] reads and advances the state of the global
    generator.  The state is modelled by the sequence of the numbers the
    generator is going to return; a Python [float] is written as the
    rational it stands for. *)
Definition RandomState := nat -> Q.

Definition Rand (A : Type) : Type := RandomState -> A * RandomState.

Definition ret {A : Type} (a : A) : Rand A := fun st => (a, st).

Definition bind {A B : Type} (m : Rand A) (k : A -> Rand B) : Rand B :=
  fun st => let (a, st') := m st in k a st'.

Notation "x <- e ;; k" := (bind e (fun x => k))
  (at level 61, e at next level, right associativity).

Definition rand : Rand Q := fun st => (st 0%nat, fun n => st (S n)).

(** ** [Move.uci()] *)
Definition square_name (s : Square) : string :=
  String (ascii_of_nat (97 + Z.to_nat (square_file s)))
         (String (ascii_of_nat (49 + Z.to_nat (square_rank s))) EmptyString).

Definition piece_symbol (pt : PieceType) : string :=
  match pt with
  | PAWN => "p"
  | KNIGHT => "n"
  | BISHOP => "b"
  | ROOK => "r"
  | QUEEN => "q"
  | KING => "k"
  end.

Definition uci (m : Move) : string :=
  match promotion m with
  | Some pt => square_name (from_square m) ++ square_name (to_square m) ++ piece_symbol pt
  | None =>
      if (from_square m =? 0) && (to_square m =? 0) then "0000"
      else square_name (from_square m) ++ square_name (to_square m)
  end.

(** [a[i] = x] on an array of fixed length. *)
Fixpoint array_set {A : Type} (l : list A) (i : nat) (x : A) : list A :=
  match l, i with
  | [], _ => []
  | _ :: r, O => x :: r
  | y :: r, S j => y :: array_set r j x
  end.

Definition piece_to_idx (pt : PieceType) : Z :=
  match pt with
  | PAWN => 0
  | KNIGHT => 1
  | BISHOP => 2
  | ROOK => 3
  | QUEEN => 4
  | KING => 5
  end.

(** The 8x8x12 tensor, flattened: entry [row, col, ch] is at
    [row * 96 + col * 12 + ch]. *)
Definition board_pattern_features (board : Board) : list Z :=
  fold_left
    (fun tensor (sp : Square * Piece) =>
       let (sq, piece) := sp in
       let row := sq / 8 in
       let col := sq mod 8 in
       let offset := if Bool.eqb (color piece) WHITE then 0 else 6 in
       array_set tensor
                 (Z.to_nat (row * 96 + col * 12 + (piece_to_idx (piece_type piece) + offset)))
                 1)
    (piece_map board) (repeat 0 768).

(** [move_list[-n:]] for [n >= 0]: the last [n] elements, the whole list
    when it has fewer, and the whole list when [n] is 0, [-0] being [0]. *)
Definition last_n {A : Type} (n : nat) (l : list A) : list A :=
  match n with
  | O => l
  | S _ => skipn (List.length l - n) l
  end.

(** [a[i] = x] for [i >= 0]; [None] is the [IndexError] of an index past
    the end of the array. *)
Definition array_store {A : Type} (l : list A) (i : nat) (x : A)
  : option (list A) :=
  if (i <? List.length l)%nat then Some (array_set l i x) else None.

Fixpoint enumerate {A : Type} (i : nat) (l : list A) : list (nat * A) :=
  match l with
  | [] => []
  | x :: r => (i, x) :: enumerate (S i) r
  end.

Section Extractor.

(** Python's [hash] on strings, fixed for the running process. *)
Variable hash : string -> Z.

(** [self.engine]: [None] without Stockfish; otherwise the reply of the
    external engine, the score in centipawns from White's side. *)
Variable engine : option (Board -> Z).

(** [None] is an exception: the [ValueError] of [np.zeros] on a negative
    length, or the [IndexError] of [features[i] = ...] past the end of
    [features]. *)
Definition move_sequence_features (move_list : list Move) (max_len : Z)
  : option (list Q) :=
  if max_len <? 0 then None
  else
    fold_left
      (fun features (im : nat * Move) =>
         let (i, move) := im in
         match features with
         | Some a => array_store a i (Qred ((hash (uci move) mod 1000) # 1000))
         | None => None
         end)
      (enumerate 0 (last_n (Z.to_nat max_len) move_list))
      (Some (repeat (0 # 1) (Z.to_nat max_len))).

Definition stockfish_eval (board : Board) : Q :=
  match engine with
  | None => 0 # 1
  | Some analyse => Qred (analyse board # 100)
  end.

Record FeatureVector := mkFeatureVector {
  boardPatternFeatures : list Z;
  moveSequenceFeatures : list Q;
  styleCluster : string;
  riskTakingScore : Q;
  tacticalAwarenessScore : Q;
  endgameSkillScore : Q;
  stockfishEval : Q
}.

(** [extract_features(fen, move_list=[])]; [None] is an exception raised
    before any number is drawn: the [ValueError] of [chess.Board(fen)], or
    one that [move_sequence_features] lets through. *)
Definition extract_features (fen : string) (move_list : list Move)
  : Rand (option FeatureVector) :=
  match decode fen with
  | None => ret None
  | Some board =>
      let board_feats := board_pattern_features board in
      match move_sequence_features move_list 10 with
      | None => ret None
      | Some move_feats =>
          risk_score <- rand ;;
          tactical_score <- rand ;;
          endgame_score <- rand ;;
          let stockfish_score := stockfish_eval board in
          ret (Some (mkFeatureVector board_feats move_feats "aggressive"
                                     risk_score tactical_score endgame_score
                                     stockfish_score))
      end
  end.

End Extractor.

(** Two generator states for the examples: the numbers [0/8, 1/8, 2/8, ...]
    and the constant [1/2]. *)
Definition counting_state : RandomState := fun n => Z.of_nat n # 8.
Definition constant_state : RandomState := fun _ => 1 # 2.

(** A process whose string hash is the length of the string. *)
Definition length_hash (s : string) : Z := Z.of_nat (String.length s).

End FeatureVectors.

(* ===================================================================== *)
(** * The specification's wording of the features, and test positions *)
(* ===================================================================== *)

(** Each definition of this module follows a sentence of the
    specification (section 4.4 and section 3), not the code; the theorems
    below compare them with the functions of [Features]. *)
Module Spec.
Import Chess Features.

(** "Invariant: exactly one king per color", on a full 8x8 placement. *)
Definition valid_position (b : Board) : bool :=
  (List.length (placement b) =? 64)%nat
  && (List.length (pieces b KING WHITE) =? 1)%nat
  && (List.length (pieces b KING BLACK) =? 1)%nat.

Definition size (l : list Square) : Z := Z.of_nat (List.length l).

(** A list of squares without repetition, and two such lists with the same
    squares, decided. *)
Fixpoint nodupb (l : list Square) : bool :=
  match l with
  | [] => true
  | x :: r => negb (mem x r) && nodupb r
  end.

Definition same_squares (l l' : list Square) : bool :=
  nodupb l && nodupb l'
  && forallb (fun x => mem x l') l && forallb (fun x => mem x l) l'.

Fixpoint squares_eqb (l l' : list Square) : bool :=
  match l, l' with
  | [], [] => true
  | x :: r, y :: r' => (x =? y) && squares_eqb r r'
  | _, _ => false
  end.

(** The eight ray directions of the sliding pieces. *)
Definition ray_deltas : list Z := [9; 7; -9; -7; 8; 1; -8; -1].

(** *** king_safety *)

(** The squares adjacent to [k]: one king step away. *)
Definition adjacent (k s : Square) : bool := square_distance k s =? 1.

Definition enemy_attacked_neighbours (b : Board) (c : Color) (k : Square) : Z :=
  size (filter (fun s => adjacent k s && is_attacked_by b (negb c) s) SQUARES).

(** *** pawn_structure.passed and passed_pawn_advancement *)

(** "strictly ahead (toward promotion)": higher ranks for white, lower
    ranks for black. *)
Definition ranks_ahead (c : Color) (rank : Z) : list Z :=
  if c then range (rank + 1) 8 else range 0 rank.

Definition enemy_pawn_ahead (b : Board) (c : Color) (sq : Square) : bool :=
  existsb (fun r => is_piece b PAWN (negb c) (square (square_file sq) r))
          (ranks_ahead c (square_rank sq)).

Definition passed_pawns (b : Board) (c : Color) : list Square :=
  filter (fun sq => negb (enemy_pawn_ahead b c sq)) (pieces b PAWN c).

Definition passed_count (b : Board) (c : Color) : Z := size (passed_pawns b c).

(** "distance already advanced from the start rank": the second rank for
    white, the seventh for black. *)
Definition ranks_advanced (c : Color) (sq : Square) : Z :=
  if c then square_rank sq - 1 else 6 - square_rank sq.

Definition advancement_sum (b : Board) (c : Color) : Z :=
  py_sum (map (ranks_advanced c) (passed_pawns b c)).

(** Every piece of the other color that stands ahead of a pawn of [c] on
    its file is a pawn. *)
Definition only_pawns_ahead (b : Board) (c : Color) : bool :=
  forallb
    (fun sq =>
       forallb
         (fun r =>
            let s := square (square_file sq) r in
            negb (has_color b (negb c) s) || is_piece b PAWN (negb c) s)
         (ranks_ahead c (square_rank sq)))
    (pieces b PAWN c).

(** *** connected_rooks *)

(** The piece on [r] defends the square [t]. *)
Definition defends (b : Board) (r t : Square) : bool := mem t (attacks b r).

Definition rooks_defend_each_other (b : Board) (c : Color) : bool :=
  match pieces b ROOK c with
  | [r0; r1] => defends b r0 r1 && defends b r1 r0
  | _ => false
  end.

(** *** attacked_vs_defended *)

Definition own_squares (b : Board) (c : Color) : list Square :=
  filter (has_color b c) SQUARES.

Definition occupied_squares (b : Board) : list Square :=
  filter (occupied b) SQUARES.

Definition own_attacked (b : Board) (c : Color) : Z :=
  size (filter (is_attacked_by b (negb c)) (own_squares b c)).

Definition own_defended (b : Board) (c : Color) : Z :=
  size (filter (is_attacked_by b c) (own_squares b c)).

(** *** backward_pawns *)

(** A same-color pawn on an adjacent file (a file of the board), one rank
    behind the pawn: toward rank 1 for white, toward rank 8 for black. *)
Definition has_supporter (b : Board) (c : Color) (p : Square) : bool :=
  let file := square_file p in
  let rank := if c then square_rank p - 1 else square_rank p + 1 in
  existsb (fun f => ((0 <=? f) && (f <? 8)) && ((0 <=? rank) && (rank <? 8))
                    && is_piece b PAWN c (square f rank))
          [file - 1; file + 1].

Definition backward_count (b : Board) (c : Color) : Z :=
  size (filter (fun p => negb (has_supporter b c p)) (pieces b PAWN c)).

(** *** checkmate and stalemate *)

(** "Zero legal moves", in the words of the filter of section 4.3: no
    pseudo-legal move of the side to move produces a position in which its
    king is not in check. *)
Definition no_escape (b : Board) : bool :=
  forallb (fun m => in_check (after_move b m) (turn b)) (pseudo_legal_moves b).

Definition is_checkmate (b : Board) : bool :=
  is_check b && (List.length (legal_moves b) =? 0)%nat.

Definition is_stalemate (b : Board) : bool :=
  negb (is_check b) && (List.length (legal_moves b) =? 0)%nat.

End Spec.

(** Positions used in examples and counterexamples. *)
Module Positions.
Import Chess.

Definition empty_board : Board := mkBoard (repeat None 64) WHITE [] None 0 1.

Definition board_of (fen : string) : Board :=
  match decode fen with
  | Some b => b
  | None => empty_board
  end.

Definition start_fen : string :=
  "rnbqkbnr/pppppppp/8/8/8/8/PPPPPPPP/RNBQKBNR w KQkq - 0 1".

Definition start : Board := board_of start_fen.

(** Fool's mate: white is checkmated. *)
Definition fools_mate : Board :=
  board_of "rnb1kbnr/pppp1ppp/8/4p3/6Pq/5P2/PPPPP2P/RNBQKBNR w KQkq - 1 3".

(** Black to move has no move and is not in check. *)
Definition stalemate : Board := board_of "7k/5Q2/6K1/8/8/8/8/8 b - - 0 1".

(** White king g1 behind its pawns after castling, black king g8. *)
Definition castled_kings : Board :=
  board_of "5rk1/5ppp/8/8/8/8/5PPP/5RK1 w - - 0 1".

(** White pawn e2 with a black knight on e5 in front of it. *)
Definition knight_in_front : Board := board_of "k7/8/8/4n3/8/8/4P3/K7 w - - 0 1".

(** Black pawn e7 and white pawn e2 on the same file. *)
Definition facing_pawns : Board := board_of "k7/4p3/8/8/8/8/4P3/K7 b - - 0 1".

(** White rooks a1 and h1 with the white king on b1 between them; the
    knight f2 guards h1. *)
Definition separated_rooks : Board := board_of "7k/8/8/8/8/8/5N2/RK5R w - - 0 1".

(** White pawns a4 and h2. *)
Definition rim_pawns : Board := board_of "4k3/8/8/8/P7/8/7P/4K3 w - - 0 1".

(** White pawn e4, black pawn d3. *)
Definition enemy_pawn_behind : Board := board_of "4k3/8/8/8/4P3/3p4/8/4K3 w - - 0 1".

(** White pawn d5 with a free file, white pawn a2 facing the black pawn
    a7. *)
Definition passed_d_pawn : Board := board_of "4k3/p7/8/3P4/8/8/P7/4K3 w - - 0 1".


(** A single black pawn on its starting square e7. *)
Definition lone_black_pawn : Board := board_of "k7/4p3/8/8/8/8/8/K7 b - - 0 1".

(** After 1. e4 d5: the white pawn e4 and the black pawn d5 attack each
    other. *)
Definition center_tension : Board :=
  board_of "rnbqkbnr/ppp1pppp/8/3p4/4P3/8/PPPP1PPP/RNBQKBNR w KQkq - 0 2".

(** The heuristic extraction of [features/features.py] run in the process
    that owns the generator: it draws no number. *)
Definition heuristic_extraction (curr : string) (prev : option string)
  : FeatureVectors.Rand (option Differ.dict) :=
  FeatureVectors.ret (Differ.extract_features curr prev).

(** Two successive invocations of the feature-vector extraction on the
    starting position, without engine and with an empty move list: the
    second starts from the generator state the first one left. *)
Definition first_run : option FeatureVectors.FeatureVector * FeatureVectors.RandomState :=
  FeatureVectors.extract_features FeatureVectors.length_hash None start_fen []
    FeatureVectors.counting_state.

Definition second_run : option FeatureVectors.FeatureVector * FeatureVectors.RandomState :=
  FeatureVectors.extract_features FeatureVectors.length_hash None start_fen []
    (snd first_run).

End Positions.

(* ===================================================================== *)
(** * Notions used to state further properties of the code *)
(* ===================================================================== *)

Module Laws.
Import Chess Features Differ.

(** ** The differ *)

(** What [compare_features(f1, f2)] stores under [key] for the item
    [(key, val2)] of [f2]: the new value when [f1] lacks the key, the
    non-empty sub-diff of two records, the new leaf when it differs;
    [None] when nothing is stored. *)
Definition reported (f1 : dict) (key : string) (val2 : pyval) : option pyval :=
  match lookup key f1 with
  | None => Some val2
  | Some val1 =>
      match val2 with
      | VDict _ =>
          match compare_value val1 val2 with
          | Some sub_diff => if nonempty sub_diff then Some (VDict sub_diff) else None
          | None => None
          end
      | _ => if py_ne val1 val2 then Some val2 else None
      end
  end.

Definition is_number (v : pyval) : bool :=
  match v with
  | VInt _ | VBool _ => true
  | _ => false
  end.

(** Two values of the same shape: leaves on both sides, or dictionaries
    with the same keys in the same order and values of the same shape. *)
Fixpoint same_shape (v1 v2 : pyval) {struct v1} : bool :=
  match v1, v2 with
  | VDict d1, VDict d2 =>
      (fix items (d1 d2 : dict) {struct d1} : bool :=
         match d1, d2 with
         | [], [] => true
         | (k1, w1) :: r1, (k2, w2) :: r2 =>
             String.eqb k1 k2 && same_shape w1 w2 && items r1 r2
         | _, _ => false
         end) d1 d2
  | VDict _, _ => false
  | _, VDict _ => false
  | _, _ => true
  end.

(** The differ returns on a value [v1] against a dictionary of the same
    shape. *)
Definition comparable (v2 : pyval) : Prop :=
  forall v1,
    same_shape v1 v2 = true -> well_formed v1 = true ->
    match v2 with
    | VDict _ => exists d, compare_value v1 v2 = Some d
    | _ => True
    end.

(** The keys of the dictionary literal of [_extract_all_features]. *)
Definition feature_names : list string :=
  ["material"; "mobility"; "king_safety"; "pawn_structure"; "center_control";
   "development"; "rook_activity"; "threats"; "piece_activity";
   "piece_coordination"; "bishop_pair_bonus"; "open_file_control";
   "space_advantage"; "weak_squares"; "outposts"; "pinned_pieces";
   "attacked_vs_defended"; "castling_status"; "king_zone_control";
   "rook_on_7th_rank"; "connected_rooks"; "passed_pawn_advancement";
   "pawn_shield"; "backward_pawns"; "isolated_weakness_clusters"]%string.

(** The diff of two per-color integer records: the colors whose number
    changed, with the new number. *)
Definition changed_colors (w1 b1 w2 b2 : Z) : dict :=
  (if w1 =? w2 then [] else [("white"%string, VInt w2)])
  ++ (if b1 =? b2 then [] else [("black"%string, VInt b2)]).

(** Small bundles for the examples. *)
Definition old_bundle : dict :=
  [("mobility", VInt 20); ("king_safety", VStr "Exposed");
   ("material", VDict [("white", VInt 39); ("black", VInt 39)])]%string.

Definition new_bundle : dict :=
  [("mobility", VInt 22); ("king_safety", VStr "Exposed");
   ("material", VDict [("white", VInt 39); ("black", VInt 38)]);
   ("tempo", VInt 1)]%string.

(** A bundle whose [mobility] became a per-color record. *)
Definition reshaped_bundle : dict :=
  [("mobility", VDict [("white", VInt 20)])]%string.

(** The starting position after 1. Nf3. *)
Definition after_nf3 : Board :=
  Positions.board_of "rnbqkbnr/pppppppp/8/8/8/5N2/PPPPPPPP/RNBQKB1R b KQkq - 1 1".

(** The position after 1. e4 e5. *)
Definition after_e4_e5 : Board :=
  Positions.board_of "rnbqkbnr/pppp1ppp/8/4p3/4P3/8/PPPP1PPP/RNBQKBNR w KQkq e6 0 2".

(** ** The feature bank *)

Definition piece_count (b : Board) (pt : PieceType) (c : Color) : Z :=
  Spec.size (pieces b pt c).

(** Pawn 1, knight 3, bishop 3, rook 5, queen 9, by number of pieces. *)
Definition material_of (b : Board) (c : Color) : Z :=
  piece_count b PAWN c + 3 * piece_count b KNIGHT c
  + 3 * piece_count b BISHOP c + 5 * piece_count b ROOK c
  + 9 * piece_count b QUEEN c.

(** The queens of a color on files without pawns. *)
Definition queens_on_open_files (b : Board) (c : Color) : Z :=
  count_if (fun q => negb (pawn_on_file b (square_file q))) (pieces b QUEEN c).

(** The central squares that hold a piece and are not attacked by [c]. *)
Definition occupied_unattacked_center (b : Board) (c : Color) : Z :=
  count_if (fun sq => negb (is_attacked_by b c sq) && occupied b sq) center.

(** The pieces of a color, counted on the piece map. *)
Definition own_piece_count (b : Board) (c : Color) : Z :=
  count_if (fun sp : Square * Piece => Bool.eqb (color (snd sp)) c) (piece_map b).

(** The opponent's half of the board: ranks 5 to 8 for White, ranks 1 to 4
    for Black. *)
Definition in_far_half (c : Color) (s : Square) : bool :=
  if c then 32 <=? s else s <? 32.

(** The knights and bishops of a color that stand on its own back rank. *)
Definition minors_at_home (b : Board) (c : Color) : Z :=
  Spec.size (filter (fun s => (is_piece b KNIGHT c s || is_piece b BISHOP c s)
                              && (square_rank s =? (if c then 0 else 7)))
                    SQUARES).

Definition files_of_board : list Z := [0; 1; 2; 3; 4; 5; 6; 7].

(** A reordering of [old_bundle]. *)
Definition old_bundle_reordered : dict :=
  [("material", VDict [("white", VInt 39); ("black", VInt 39)]);
   ("king_safety", VStr "Exposed"); ("mobility", VInt 20)]%string.

(** Positions for the examples: White with doubled c-pawns and a queen on
    the open d-file; a position with hanging and guarded pieces. *)
Definition doubled_c_pawns : Board :=
  Positions.board_of "4k3/pp3ppp/8/8/2P5/2P5/P4PPP/3QK2R w K - 0 1".

End Laws.

Module VectorLaws.
Import Chess FeatureVectors.

(** The channel of a piece in the board tensor: its type, plus 6 for a
    black piece. *)
Definition channel (p : Piece) : Z :=
  piece_to_idx (piece_type p) + (if Bool.eqb (color p) WHITE then 0 else 6).

(** The place of the item [(square, piece)] in the flattened tensor. *)
Definition tensor_index (sp : Square * Piece) : nat :=
  Z.to_nat ((fst sp / 8) * 96 + (fst sp mod 8) * 12 + channel (snd sp)).

(** The number stored for one move: [hash(move.uci()) % 1000 / 1000.0]. *)
Definition encode_move (hash : string -> Z) (m : Move) : Q :=
  Qred ((hash (uci m) mod 1000) # 1000).

(** A process whose string hash is negative. *)
Definition negative_hash (s : string) : Z := - Z.of_nat (String.length s) - 7.

(** A process whose string hash differs from [length_hash] by a multiple of
    1000. *)
Definition shifted_hash (s : string) : Z := Z.of_nat (String.length s) + 7000.

(** Twelve moves of a game, as they would be passed in [move_list]. *)
Definition twelve_moves : list Move :=
  map (fun i => mkMove (8 + i) (24 + i) None) [0; 1; 2; 3; 4; 5; 6; 7]
  ++ map (fun i => mkMove (48 + i) (32 + i) None) [0; 1; 2; 3].

(** The starting placement with Black to move and no castling right. *)
Definition start_black_to_move : Board :=
  Positions.board_of "rnbqkbnr/pppppppp/8/8/8/8/PPPPPPPP/RNBQKBNR b - - 5 9".

End VectorLaws.

(* ===================================================================== *)
(** * Checks of the library layer *)
(* ===================================================================== *)

Module ChessChecks.
Import Chess Positions.
Import Spec.

Lemma PieceType_eqb_eq a b : PieceType_eqb a b = true <-> a = b.
Proof. destruct a, b; simpl; split; congruence. Qed.

Example start_decodes :
  option_map (fun b => (List.length (placement b), turn b, castling_rights b))
             (decode start_fen)
  = Some (64%nat, WHITE, [7; 0; 63; 56]).
Proof. vm_compute. reflexivity. Qed.

Example malformed_rank :
  decode "rnbqkbnr/ppppppp/8/8/8/8/PPPPPPPP/RNBQKBNR w KQkq - 0 1" = None.
Proof. vm_compute. reflexivity. Qed.

Example start_kings : king start WHITE = Some 4 /\ king start BLACK = Some 60.
Proof. vm_compute. auto. Qed.

Example knight_b1_attacks : attacks start 1 = [18; 16; 11].
Proof. vm_compute. reflexivity. Qed.

Example rook_a1_attacks : attacks start 0 = [8; 1].
Proof. vm_compute. reflexivity. Qed.

Example start_e3_attacked :
  is_attacked_by start WHITE 20 = true /\ is_attacked_by start BLACK 20 = false.
Proof. vm_compute. auto. Qed.

(** Seven steps reach the edge of the board on every ray: more fuel adds
    no square, even on an empty board. *)
Lemma squares_eqb_eq (l l' : list Square) : squares_eqb l l' = true -> l = l'.
Proof.
  revert l'. induction l as [|x r IH]; intros [|y r']; simpl; try discriminate.
  - reflexivity.
  - intros H. apply andb_prop in H. destruct H as [E H].
    apply Z.eqb_eq in E. subst. f_equal. now apply IH.
Qed.

Lemma slide_fuel_enough (sq : Square) (d : Z) :
  In sq SQUARES -> In d ray_deltas ->
  slide (fun _ => false) d sq 7 = slide (fun _ => false) d sq 8.
Proof.
  intros Hs Hd. apply squares_eqb_eq.
  assert (H : forallb
                (fun s => forallb
                            (fun d => squares_eqb
                                        (slide (fun _ => false) d s 7)
                                        (slide (fun _ => false) d s 8))
                            ray_deltas)
                SQUARES = true) by (vm_compute; reflexivity).
  rewrite forallb_forall in H. specialize (H sq Hs).
  rewrite forallb_forall in H. exact (H d Hd).
Qed.

(** The move generator on the standard test positions: the number of
    legal moves of each is known. *)
Example start_has_20_moves : List.length (legal_moves start) = 20%nat.
Proof. vm_compute. reflexivity. Qed.

Example kiwipete_has_48_moves :
  List.length (legal_moves (board_of
    "r3k2r/p1ppqpb1/bn2pnp1/3PN3/1p2P3/2N2Q1p/PPPBBPPP/R3K2R w KQkq - 0 1")) = 48%nat.
Proof. vm_compute. reflexivity. Qed.

Example rook_endgame_has_14_moves :
  List.length (legal_moves (board_of "8/2p5/3p4/KP5r/1R3p1k/8/4P1P1/8 w - - 0 1")) = 14%nat.
Proof. vm_compute. reflexivity. Qed.

Example checked_king_has_6_moves :
  List.length (legal_moves (board_of
    "r3k2r/Pppp1ppp/1b3nbN/nP6/BBP1P3/q4N2/Pp1P2PP/R2Q1RK1 w kq - 0 1")) = 6%nat.
Proof. vm_compute. reflexivity. Qed.

Example promotion_position_has_44_moves :
  List.length (legal_moves (board_of
    "rnbq1k1r/pp1Pbppp/2p5/8/2B5/8/PPP1NnPP/RNBQK2R w KQ - 1 8")) = 44%nat.
Proof. vm_compute. reflexivity. Qed.

Example middlegame_has_46_moves :
  List.length (legal_moves (board_of
    "r4rk1/1pp1qppp/p1np1n2/2b1p1B1/2B1P1b1/P1NP1N2/1PP1QPPP/R4RK1 w - - 0 10")) = 46%nat.
Proof. vm_compute. reflexivity. Qed.

(** En passant that would uncover a rook check along the rank is refused. *)
Example en_passant_pin :
  List.length (legal_moves (board_of "8/8/8/KPp4r/8/8/8/7k w - c6 0 1")) = 4%nat
  /\ List.length (legal_moves (board_of "8/8/8/KPp5/8/8/8/7k w - c6 0 1")) = 5%nat.
Proof. vm_compute. auto. Qed.

(** A knight pinned on the e-file by a rook. *)
Example pinned_knight :
  is_pinned (board_of "4r2k/8/8/8/8/8/4N3/4K3 w - - 0 1") WHITE 12 = true
  /\ is_pinned (board_of "4r2k/8/8/8/4P3/8/4N3/4K3 w - - 0 1") WHITE 12 = false
  /\ filter (fun m => from_square m =? 12)
       (legal_moves (board_of "4r2k/8/8/8/8/8/4N3/4K3 w - - 0 1")) = [].
Proof. vm_compute. auto. Qed.

End ChessChecks.

Module FeatureChecks.
Import Chess Positions Features.

Example start_material : get_material start = (39, 39).
Proof. vm_compute. reflexivity. Qed.

Example start_mobility : get_mobility start = 20.
Proof. vm_compute. reflexivity. Qed.

Example start_king_safety :
  get_king_safety start WHITE = Some "Exposed"%string
  /\ get_king_safety start BLACK = Some "Exposed"%string.
Proof. vm_compute. auto. Qed.

Example start_castling_status :
  get_castling_status start WHITE = true /\ get_castling_status start BLACK = true.
Proof. vm_compute. auto. Qed.

Example start_pawn_shield :
  get_pawn_shield start WHITE = Some 3 /\ get_pawn_shield start BLACK = Some 3.
Proof. vm_compute. auto. Qed.

End FeatureChecks.

(* ===================================================================== *)
(** * Counting loops *)
(* ===================================================================== *)

Module Counting.
Import Chess Features Spec.

Lemma count_if_from {A} (f : A -> bool) (l : list A) (n : Z) :
  fold_left (fun n x => if f x then n + 1 else n) l n
  = n + Z.of_nat (List.length (filter f l)).
Proof.
  revert n. induction l as [|x l IH]; intros n; simpl.
  - lia.
  - rewrite IH. destruct (f x); simpl List.length; lia.
Qed.

Lemma count_if_filter {A} (f : A -> bool) (l : list A) :
  count_if f l = Z.of_nat (List.length (filter f l)).
Proof. unfold count_if. rewrite count_if_from. lia. Qed.

Lemma count_if_ext {A} (f g : A -> bool) (l : list A) :
  (forall x, In x l -> f x = g x) -> count_if f l = count_if g l.
Proof.
  intros H. rewrite !count_if_filter. f_equal. f_equal.
  now apply filter_ext_in.
Qed.

Lemma filter_all {A} (f : A -> bool) (l : list A) :
  (forall x, In x l -> f x = true) -> filter f l = l.
Proof.
  induction l as [|x l IH]; intros H; simpl; [reflexivity|].
  rewrite (H x (or_introl eq_refl)). f_equal. apply IH.
  intros y Hy. apply H. now right.
Qed.

Lemma filter_none {A} (f : A -> bool) (l : list A) :
  (forall x, In x l -> f x = false) -> filter f l = [].
Proof.
  induction l as [|x l IH]; intros H; simpl; [reflexivity|].
  rewrite (H x (or_introl eq_refl)). apply IH.
  intros y Hy. apply H. now right.
Qed.

Lemma filter_length_perm {A} (f : A -> bool) (l l' : list A) :
  Permutation l l' -> List.length (filter f l) = List.length (filter f l').
Proof.
  induction 1; simpl; try congruence.
  - destruct (f x); simpl; congruence.
  - destruct (f x), (f y); reflexivity.
Qed.

Lemma existsb_same {A} (f g : A -> bool) (l : list A) :
  (forall x, f x = g x) -> existsb f l = existsb g l.
Proof.
  intros H. induction l as [|x l IH]; simpl; [reflexivity|].
  now rewrite H, IH.
Qed.

Lemma py_sum_from (l : list Z) (n : Z) : fold_left Z.add l n = n + py_sum l.
Proof.
  unfold py_sum. revert n. induction l as [|x l IH]; intros n; simpl.
  - lia.
  - rewrite IH, (IH x). lia.
Qed.

Lemma py_sum_cons (x : Z) (l : list Z) : py_sum (x :: l) = x + py_sum l.
Proof. unfold py_sum at 1. simpl. now rewrite py_sum_from. Qed.

Lemma mem_In (s : Square) (l : list Square) : mem s l = true <-> In s l.
Proof.
  unfold mem. rewrite existsb_exists. split.
  - intros [x [Hx E]]. apply Z.eqb_eq in E. now subst.
  - intros H. exists s. split; [assumption | apply Z.eqb_refl].
Qed.

Lemma In_SQUARES (s : Square) : In s SQUARES <-> 0 <= s < 64.
Proof.
  unfold SQUARES. rewrite in_map_iff. split.
  - intros [n [<- Hn]]. apply in_seq in Hn. lia.
  - intros H. exists (Z.to_nat s). split; [lia | apply in_seq; lia].
Qed.

Lemma pieces_In (b : Board) (pt : PieceType) (c : Color) (s : Square) :
  In s (pieces b pt c) <-> 0 <= s < 64 /\ is_piece b pt c s = true.
Proof. unfold pieces. now rewrite filter_In, In_SQUARES. Qed.

Lemma nodupb_NoDup (l : list Square) : nodupb l = true -> NoDup l.
Proof.
  induction l as [|x l IH]; simpl; intros H; constructor.
  - apply andb_prop in H. destruct H as [H _].
    intros Hin. apply mem_In in Hin. rewrite Hin in H. discriminate.
  - apply IH. now apply andb_prop in H.
Qed.

Lemma same_squares_perm (l l' : list Square) :
  same_squares l l' = true -> Permutation l l'.
Proof.
  unfold same_squares. intros H.
  apply andb_prop in H. destruct H as [H H4].
  apply andb_prop in H. destruct H as [H H3].
  apply andb_prop in H. destruct H as [H1 H2].
  apply NoDup_Permutation; auto using nodupb_NoDup.
  intros x. rewrite forallb_forall in H3, H4. split; intros Hx.
  - apply mem_In. now apply H3.
  - apply mem_In. now apply H4.
Qed.

(** The king's offset table holds exactly the adjacent squares. *)
Lemma king_table_adjacent (k : Square) :
  0 <= k < 64 ->
  Permutation (BB_KING_ATTACKS k) (filter (adjacent k) SQUARES).
Proof.
  intros Hk. apply same_squares_perm.
  assert (H : forallb (fun k => same_squares (BB_KING_ATTACKS k)
                                  (filter (adjacent k) SQUARES)) SQUARES = true)
    by (vm_compute; reflexivity).
  rewrite forallb_forall in H. apply H. now apply In_SQUARES.
Qed.

Lemma valid_king (b : Board) (c : Color) :
  valid_position b = true ->
  exists k, pieces b KING c = [k] /\ king b c = Some k /\ 0 <= k < 64.
Proof.
  unfold valid_position. intros H.
  apply andb_prop in H. destruct H as [H Hb].
  apply andb_prop in H. destruct H as [_ Hw].
  assert (Hc : List.length (pieces b KING c) = 1%nat).
  { destruct c; [apply Nat.eqb_eq in Hw | apply Nat.eqb_eq in Hb]; assumption. }
  destruct (pieces b KING c) as [|k [|k' r]] eqn:E; simpl in Hc; try discriminate.
  exists k. repeat split.
  - unfold king. now rewrite E.
  - assert (In k (pieces b KING c)) by (rewrite E; now left).
    apply pieces_In in H. lia.
  - assert (In k (pieces b KING c)) by (rewrite E; now left).
    apply pieces_In in H. lia.
Qed.

End Counting.

(* ===================================================================== *)
(** * King safety *)
(* ===================================================================== *)

Module KingSafety.
Import Chess Features Spec Positions Counting.

Lemma unsafe_count (b : Board) (c : Color) (k : Square) :
  0 <= k < 64 ->
  count_if (fun sq => is_attacked_by b (negb c) sq) (BB_KING_ATTACKS k)
  = enemy_attacked_neighbours b c k.
Proof.
  intros Hk. rewrite count_if_filter. unfold enemy_attacked_neighbours, size.
  rewrite (filter_length_perm _ _ _ (king_table_adjacent k Hk)).
  f_equal. f_equal.
  induction SQUARES as [|s l IH]; simpl; [reflexivity|].
  destruct (adjacent k s); simpl; [destruct (is_attacked_by b (negb c) s)|];
    now rewrite IH.
Qed.

(** C3.  On a valid position the king of each color exists, and
    [get_king_safety] answers "Safe" exactly when at most two of the squares
    adjacent to that king are attacked by the other color and the color
    holds no castling right; in every other case it answers "Exposed". *)
Theorem king_safety_safe_iff (b : Board) (c : Color) :
  valid_position b = true ->
  exists k,
    king b c = Some k
    /\ (get_king_safety b c = Some "Safe"%string
        <-> enemy_attacked_neighbours b c k <= 2
            /\ has_castling_rights b c = false)
    /\ (get_king_safety b c <> Some "Safe"%string
        -> get_king_safety b c = Some "Exposed"%string).
Proof.
  intros Hv. destruct (valid_king b c Hv) as [k [_ [Hk Hr]]].
  exists k. split; [assumption|].
  unfold get_king_safety. rewrite Hk, (unsafe_count b c k Hr).
  destruct (enemy_attacked_neighbours b c k <=? 2) eqn:Hu;
    destruct (has_castling_rights b c) eqn:Hc; simpl.
  - split.
    + split; [intros H; discriminate | intros [_ H]; discriminate].
    + reflexivity.
  - split.
    + split; [intros _; split; [now apply Z.leb_le | reflexivity] | reflexivity].
    + intros H. now contradiction H.
  - split.
    + split; [intros H; discriminate | intros [_ H]; discriminate].
    + reflexivity.
  - split.
    + split; [intros H; discriminate|].
      intros [H _]. apply Z.leb_gt in Hu. lia.
    + reflexivity.
Qed.

Lemma king_safety_safe_iff_witness :
  valid_position castled_kings = true
  /\ exists k,
       king castled_kings WHITE = Some k
       /\ (get_king_safety castled_kings WHITE = Some "Safe"%string
           <-> enemy_attacked_neighbours castled_kings WHITE k <= 2
               /\ has_castling_rights castled_kings WHITE = false)
       /\ (get_king_safety castled_kings WHITE <> Some "Safe"%string
           -> get_king_safety castled_kings WHITE = Some "Exposed"%string).
Proof.
  split; [vm_compute; reflexivity|].
  apply (king_safety_safe_iff castled_kings WHITE). vm_compute. reflexivity.
Defined.

Example castled_king_is_safe :
  get_king_safety castled_kings WHITE = Some "Safe"%string
  /\ get_king_safety start WHITE = Some "Exposed"%string.
Proof. vm_compute. auto. Qed.

(** Without a king of the color the function raises. *)
Example king_safety_without_king : get_king_safety empty_board WHITE = None.
Proof. vm_compute. reflexivity. Qed.

End KingSafety.

(* ===================================================================== *)
(** * Legal moves: mobility and piece activity *)
(* ===================================================================== *)

Module Mobility.
Import Chess Features Spec Positions Counting.

Lemma pawn_moves_to_from (s t : Square) (m : Move) :
  In m (pawn_moves_to s t) -> from_square m = s.
Proof.
  unfold pawn_moves_to.
  destruct ((square_rank t =? 0) || (square_rank t =? 7)); simpl;
    intuition (subst; reflexivity).
Qed.

Lemma piece_moves_from (b : Board) (s : Square) (p : Piece) (m : Move) :
  In m (piece_moves b s p) -> from_square m = s.
Proof.
  unfold piece_moves. destruct (piece_type p); intros H;
    try (apply in_map_iff in H; destruct H as [t [<- _]]; reflexivity).
  apply in_flat_map in H. destruct H as [t [_ H]].
  now apply pawn_moves_to_from in H.
Qed.

(** Every pseudo-legal move starts on a square that holds a piece of the
    side to move. *)
Lemma pseudo_legal_from_turn (b : Board) (m : Move) :
  In m (pseudo_legal_moves b) -> color_at b (from_square m) = Some (turn b).
Proof.
  unfold pseudo_legal_moves. intros H.
  apply in_flat_map in H. destruct H as [s [_ H]].
  unfold moves_from in H. unfold color_at.
  destruct (piece_at b s) as [p|] eqn:Hp; [|contradiction].
  destruct (Bool.eqb (color p) (turn b)) eqn:Hc; [|contradiction].
  apply piece_moves_from in H. subst s. rewrite Hp. simpl.
  f_equal. now apply eqb_prop.
Qed.

Lemma legal_from_turn (b : Board) (m : Move) :
  In m (legal_moves b) -> color_at b (from_square m) = Some (turn b).
Proof.
  unfold legal_moves. intros H. apply filter_In in H.
  now apply pseudo_legal_from_turn.
Qed.

(** The count of [get_piece_activity] over any list of moves that all
    start from pieces of one color: the whole list for that color, nothing
    for the other. *)
Lemma activity_of_one_color (b : Board) (c : Color) (moves : list Move) :
  (forall m, In m moves -> color_at b (from_square m) = Some c) ->
  count_if (fun move => color_is (color_at b (from_square move)) c) moves
  = Z.of_nat (List.length moves)
  /\ count_if (fun move => color_is (color_at b (from_square move)) (negb c)) moves
     = 0.
Proof.
  intros H. rewrite !count_if_filter. split.
  - rewrite filter_all; [reflexivity|].
    intros m Hm. rewrite (H m Hm). simpl. apply eqb_reflx.
  - rewrite filter_none; [reflexivity|].
    intros m Hm. rewrite (H m Hm). simpl. destruct c; reflexivity.
Qed.

(** C10.  The piece activity of the side to move is the mobility of the
    position, and the piece activity of the other color is 0: every legal
    move starts from a piece of the side to move. *)
Theorem piece_activity_is_mobility (b : Board) :
  get_piece_activity b (turn b) = get_mobility b
  /\ get_piece_activity b (negb (turn b)) = 0.
Proof.
  unfold get_piece_activity, get_mobility.
  apply activity_of_one_color. intros m Hm. now apply legal_from_turn.
Qed.

Example start_piece_activity :
  get_piece_activity start WHITE = 20 /\ get_piece_activity start BLACK = 0.
Proof. vm_compute. auto. Qed.

(** The two cases on concrete positions. *)
Example checkmate_position :
  legal_moves fools_mate = [] /\ is_check fools_mate = true
  /\ is_checkmate fools_mate = true /\ get_mobility fools_mate = 0.
Proof. vm_compute. auto. Qed.

Example stalemate_position :
  valid_position stalemate = true
  /\ legal_moves stalemate = [] /\ is_check stalemate = false
  /\ is_stalemate stalemate = true /\ get_mobility stalemate = 0.
Proof. vm_compute. auto. Qed.

End Mobility.

(* ===================================================================== *)
(** * Pawn features *)
(* ===================================================================== *)

Module Pawns.
Import Chess Features Spec Positions Counting.

(** The inner loop of the passed-pawn count is an existence test. *)
Lemma blocked_ahead_exists (b : Board) (c : Color) (sq : Square) :
  blocked_ahead b c sq
  = existsb (fun r => has_color b (negb c) (square (square_file sq) r))
            (range (square_rank sq + 1) 8).
Proof.
  unfold blocked_ahead.
  assert (H : forall l acc,
             fold_left
               (fun blocked ahead =>
                  match piece_at b (square (square_file sq) ahead) with
                  | Some p => if negb (Bool.eqb (color p) c) then true else blocked
                  | None => blocked
                  end) l acc
             = acc || existsb (fun r => has_color b (negb c)
                                          (square (square_file sq) r)) l).
  { induction l as [|r l IH]; intros acc; simpl.
    - now rewrite orb_false_r.
    - rewrite IH. unfold has_color.
      destruct (piece_at b (square (square_file sq) r)) as [p|]; simpl.
      + destruct (color p), c, acc; reflexivity.
      + reflexivity. }
  now rewrite H.
Qed.

(** What the code counts as passed: the pawns of the color with no piece
    of the other color on a higher rank of their file, whatever the color
    and whatever the piece. *)
Lemma passed_counts_clear_above (b : Board) (c : Color) :
  passed (get_pawn_structure b c)
  = size (filter
            (fun sq =>
               negb (existsb (fun r => has_color b (negb c)
                                         (square (square_file sq) r))
                             (range (square_rank sq + 1) 8)))
            (pieces b PAWN c)).
Proof.
  unfold get_pawn_structure. cbn [passed]. rewrite count_if_filter.
  unfold size. f_equal. f_equal. apply filter_ext.
  intros sq. now rewrite blocked_ahead_exists.
Qed.

(** C1.  The [passed] component differs from the number of pawns with no
    enemy pawn ahead of them: a white pawn behind a black knight is not
    counted although no pawn faces it, and a black pawn facing a white pawn
    further down its file is counted. *)
Theorem passed_differs_from_spec :
  passed (get_pawn_structure knight_in_front WHITE) = 0
  /\ passed_count knight_in_front WHITE = 1
  /\ passed (get_pawn_structure facing_pawns BLACK) = 1
  /\ passed_count facing_pawns BLACK = 0.
Proof. vm_compute. auto. Qed.

(** The loop [n = 0; for x in l: if f(x): n += g(x)]. *)
Lemma sum_if_from {A} (f : A -> bool) (g : A -> Z) (l : list A) (n : Z) :
  fold_left (fun n x => if f x then n + g x else n) l n
  = n + py_sum (map g (filter f l)).
Proof.
  revert n. induction l as [|x l IH]; intros n; cbn [fold_left filter].
  - unfold py_sum. simpl. lia.
  - rewrite IH. destruct (f x); cbn [map]; [rewrite py_sum_cons|]; lia.
Qed.

(** What the code sums: the rank index of every pawn of the color with no
    piece of the other color on a higher rank of its file. *)
Lemma advancement_sums_rank_index (b : Board) (c : Color) :
  get_passed_pawn_advancement b c
  = py_sum (map square_rank
              (filter
                 (fun sq =>
                    negb (existsb (fun r => has_color b (negb c)
                                              (square (square_file sq) r))
                                  (range (square_rank sq + 1) 8)))
                 (pieces b PAWN c))).
Proof.
  unfold get_passed_pawn_advancement. rewrite sum_if_from.
  rewrite Z.add_0_l. f_equal. f_equal. apply filter_ext.
  intros sq. f_equal. apply existsb_same. intros r. unfold has_color.
  destruct (piece_at b (square (square_file sq) r)) as [p|]; [|reflexivity].
  destruct (color p), c; reflexivity.
Qed.

(** Where every enemy piece on the listed ranks of a file is a pawn,
    meeting an enemy piece there and meeting an enemy pawn there are the
    same. *)
Lemma enemy_is_pawn_on (b : Board) (c : Color) (file : Z) (l : list Z) :
  (forall r, In r l ->
             negb (has_color b (negb c) (square file r))
             || is_piece b PAWN (negb c) (square file r) = true) ->
  existsb (fun r => has_color b (negb c) (square file r)) l
  = existsb (fun r => is_piece b PAWN (negb c) (square file r)) l.
Proof.
  induction l as [|r l IH]; intros H; [reflexivity|].
  cbn [existsb]. rewrite IH by (intros x Hx; apply H; now right).
  f_equal. specialize (H r (or_introl eq_refl)).
  apply orb_prop in H. destruct H as [H | H].
  - apply negb_true_iff in H. rewrite H. symmetry.
    destruct (is_piece b PAWN (negb c) (square file r)) eqn:E; [|reflexivity].
    unfold is_piece in E. unfold has_color in H.
    destruct (piece_at b (square file r)); [|discriminate].
    apply andb_prop in E. destruct E as [_ E]. congruence.
  - rewrite H. unfold is_piece in H. unfold has_color.
    destruct (piece_at b (square file r)); [|discriminate].
    now apply andb_prop in H.
Qed.

Lemma only_pawns_ahead_unfold (b : Board) (c : Color) :
  only_pawns_ahead b c
  = forallb
      (fun sq =>
         forallb
           (fun r =>
              let s := square (square_file sq) r in
              negb (has_color b (negb c) s) || is_piece b PAWN (negb c) s)
           (ranks_ahead c (square_rank sq)))
      (pieces b PAWN c).
Proof. reflexivity. Qed.

(** On a position where only pawns of the other color stand ahead of the
    white pawns, the code's test and the specification's test of a passed
    white pawn agree. *)
Lemma white_clear_above_is_passed (b : Board) (sq : Square) :
  only_pawns_ahead b true = true ->
  In sq (pieces b PAWN true) ->
  negb (existsb (fun r => has_color b (negb true) (square (square_file sq) r))
                (range (square_rank sq + 1) 8))
  = negb (enemy_pawn_ahead b true sq).
Proof.
  intros H Hin. rewrite only_pawns_ahead_unfold in H.
  pose proof (proj1 (forallb_forall _ _) H sq Hin) as Hsq.
  cbv beta in Hsq.
  pose proof (proj1 (forallb_forall _ _) Hsq) as Hr.
  unfold enemy_pawn_ahead. f_equal.
  apply (enemy_is_pawn_on b true (square_file sq)). exact Hr.
Qed.

Lemma white_passed_agrees (b : Board) :
  only_pawns_ahead b WHITE = true ->
  passed (get_pawn_structure b WHITE) = passed_count b WHITE.
Proof.
  intros H. rewrite passed_counts_clear_above.
  unfold passed_count, passed_pawns. f_equal. apply filter_ext_in.
  intros sq Hin. now apply white_clear_above_is_passed.
Qed.





Example passed_d_pawn_values :
  get_passed_pawn_advancement passed_d_pawn WHITE = 4
  /\ advancement_sum passed_d_pawn WHITE = 3
  /\ passed_count passed_d_pawn WHITE = 1.
Proof. vm_compute. auto. Qed.

(** For Black the same loop runs toward rank 8 and adds the same rank
    index: a black pawn on its starting square e7 counts 6. *)
Example black_advancement_on_start_square :
  get_passed_pawn_advancement lone_black_pawn BLACK = 6
  /\ advancement_sum lone_black_pawn BLACK = 0.
Proof. vm_compute. auto. Qed.

(** C8.  The backward-pawn count looks at any pawn on the two supporter
    squares, and computes these squares without a file check: the white
    pawn a4 is taken to be supported by the pawn h2 (the square "one file
    left of a3"), the white pawn e4 by the black pawn d3. *)
Theorem backward_differs_from_spec :
  supporters WHITE 24 = [15; 17]
  /\ get_backward_pawns rim_pawns WHITE = 1
  /\ backward_count rim_pawns WHITE = 2
  /\ get_backward_pawns enemy_pawn_behind WHITE = 0
  /\ backward_count enemy_pawn_behind WHITE = 1.
Proof. vm_compute. repeat split; reflexivity. Qed.

End Pawns.

(* ===================================================================== *)
(** * Rooks and the attack balance *)
(* ===================================================================== *)

Module Pieces.
Import Chess Features Spec Positions Counting.

Lemma is_piece_has_color (b : Board) (pt : PieceType) (c : Color) (s : Square) :
  is_piece b pt c s = true -> has_color b c s = true.
Proof.
  unfold is_piece, has_color. destruct (piece_at b s); [|discriminate].
  intros H. now apply andb_prop in H.
Qed.

(** A piece of [c] on [r] that defends [t] makes [t] attacked by [c]. *)
Lemma defends_attacked (b : Board) (c : Color) (r t : Square) :
  0 <= r < 64 -> has_color b c r = true -> defends b r t = true ->
  is_attacked_by b c t = true.
Proof.
  intros Hr Hc Hd. unfold is_attacked_by. apply existsb_exists.
  exists r. split; [now apply In_SQUARES|].
  unfold attacks_square. unfold has_color in Hc.
  destruct (piece_at b r); [|discriminate].
  rewrite Hc. exact Hd.
Qed.

(** Two rooks that defend each other are reported as connected. *)
Lemma connected_rooks_complete (b : Board) (c : Color) :
  rooks_defend_each_other b c = true -> get_connected_rooks b c = 1.
Proof.
  unfold rooks_defend_each_other, get_connected_rooks.
  destruct (pieces b ROOK c) as [|r0 [|r1 [|r2 l]]] eqn:E; try discriminate.
  intros H. apply andb_prop in H. destruct H as [H01 H10].
  assert (H0 : In r0 (pieces b ROOK c)) by (rewrite E; simpl; auto).
  assert (H1 : In r1 (pieces b ROOK c)) by (rewrite E; simpl; auto).
  apply pieces_In in H0, H1. destruct H0 as [R0 P0], H1 as [R1 P1].
  apply is_piece_has_color in P0, P1.
  rewrite (defends_attacked b c r1 r0 R1 P1 H10).
  rewrite (defends_attacked b c r0 r1 R0 P0 H01).
  reflexivity.
Qed.

(** What the code reports: exactly two rooks, each standing on a square
    attacked by some piece of its own color. *)
Lemma connected_rooks_guarded (b : Board) (c : Color) :
  get_connected_rooks b c = 1
  <-> exists r0 r1,
        pieces b ROOK c = [r0; r1]
        /\ is_attacked_by b c r0 = true /\ is_attacked_by b c r1 = true.
Proof.
  unfold get_connected_rooks.
  destruct (pieces b ROOK c) as [|r0 [|r1 [|r2 l]]]; split;
    try discriminate;
    try (intros [x [y [E _]]]; discriminate).
  - destruct (is_attacked_by b c r0) eqn:A0, (is_attacked_by b c r1) eqn:A1;
      simpl; try discriminate.
    intros _. exists r0, r1. auto.
  - intros [x [y [E [Hx Hy]]]]. injection E as <- <-. now rewrite Hx, Hy.
Qed.

(** C6.  The white rooks a1 and h1 are separated by their own king on b1,
    so neither defends the other; the king guards a1 and the knight f2
    guards h1, and the feature reports the rooks as connected. *)
Theorem connected_rooks_differs_from_spec :
  pieces separated_rooks ROOK WHITE = [0; 7]
  /\ defends separated_rooks 0 7 = false
  /\ defends separated_rooks 7 0 = false
  /\ rooks_defend_each_other separated_rooks WHITE = false
  /\ get_connected_rooks separated_rooks WHITE = 1.
Proof. vm_compute. repeat split; reflexivity. Qed.

Lemma filter_twice_length (f g : Square -> bool) (l : list Square) :
  List.length (filter f (filter g l))
  = List.length (filter (fun x => g x && f x) l).
Proof.
  induction l as [|x l IH]; simpl; [reflexivity|].
  destruct (g x); simpl; [destruct (f x); simpl|]; now rewrite IH.
Qed.

Lemma size_filter_rev (f g : Square -> bool) (l : list Square) :
  size (filter f (filter g (rev l))) = size (filter f (filter g l)).
Proof.
  unfold size. rewrite !filter_twice_length. f_equal.
  apply filter_length_perm. apply Permutation_sym, Permutation_rev.
Qed.

(** The occupied squares are those of one color and those of the other. *)
Lemma size_by_color (b : Board) (c : Color) (f : Square -> bool) (l : list Square) :
  size (filter f (filter (occupied b) l))
  = size (filter f (filter (has_color b c) l))
    + size (filter f (filter (has_color b (negb c)) l)).
Proof.
  unfold size. induction l as [|x l IH]; simpl; [reflexivity|].
  assert (E : (occupied b x = true /\ has_color b c x = true
               /\ has_color b (negb c) x = false)
              \/ (occupied b x = true /\ has_color b c x = false
                  /\ has_color b (negb c) x = true)
              \/ (occupied b x = false /\ has_color b c x = false
                  /\ has_color b (negb c) x = false)).
  { unfold occupied, has_color.
    destruct (piece_at b x) as [p|]; [destruct (color p), c|]; simpl; auto. }
  destruct E as [[-> [-> ->]] | [[-> [-> ->]] | [-> [-> ->]]]];
    simpl; destruct (f x); simpl List.length; lia.
Qed.

Lemma balance_loop (b : Board) (c : Color) (l : list Square) (a d : Z) :
  fold_left
    (fun (acc : Z * Z) (sp : Square * Piece) =>
       let (attacked, defended) := acc in
       let (sq, piece) := sp in
       let attacked := if is_attacked_by b (negb c) sq then attacked + 1 else attacked in
       let defended := if is_attacked_by b c sq then defended + 1 else defended in
       (attacked, defended))
    (flat_map (fun s => match piece_at b s with
                        | Some p => [(s, p)]
                        | None => []
                        end) l)
    (a, d)
  = (a + size (filter (is_attacked_by b (negb c)) (filter (occupied b) l)),
     d + size (filter (is_attacked_by b c) (filter (occupied b) l))).
Proof.
  revert a d. induction l as [|x l IH]; intros a d.
  - unfold size. cbn. f_equal; lia.
  - cbn [flat_map filter]. destruct (piece_at b x) as [p|] eqn:Hp.
    + assert (Ho : occupied b x = true) by (unfold occupied; now rewrite Hp).
      rewrite Ho. cbn [app fold_left filter]. rewrite IH.
      destruct (is_attacked_by b (negb c) x), (is_attacked_by b c x);
        unfold size; cbn [List.length]; f_equal; lia.
    + assert (Ho : occupied b x = false) by (unfold occupied; now rewrite Hp).
      rewrite Ho. cbn [app]. apply IH.
Qed.

Lemma balance_occupied (b : Board) (c : Color) :
  attacked (get_attacked_vs_defended_balance b c)
  = size (filter (is_attacked_by b (negb c)) (occupied_squares b))
  /\ defended (get_attacked_vs_defended_balance b c)
     = size (filter (is_attacked_by b c) (occupied_squares b)).
Proof.
  unfold get_attacked_vs_defended_balance, piece_map, occupied_squares.
  rewrite balance_loop. cbn [attacked defended].
  rewrite !size_filter_rev. split; lia.
Qed.

(** C7.  The code differs from the claim.  In the starting position no
    white piece is attacked by Black, and the [attacked] component for
    White is 14: the black pieces that Black guards are counted.  After
    1. e4 d5 White guards 13 of its pieces, and the [defended] component
    for White is 14: the black pawn d5, attacked by the pawn e4, is
    counted.  [get_piece_coordination], which runs the same loop with the
    test [piece.color == color], returns the 13 of the claim. *)
Theorem balance_differs_from_spec :
  valid_position start = true
  /\ attacked (get_attacked_vs_defended_balance start WHITE) = 14
  /\ own_attacked start WHITE = 0
  /\ own_defended start BLACK = 14
  /\ valid_position center_tension = true
  /\ get_attacked_vs_defended_balance center_tension WHITE = mkBalance 15 14
  /\ own_attacked center_tension WHITE = 1
  /\ own_defended center_tension WHITE = 13
  /\ get_piece_coordination center_tension WHITE = 13.
Proof. vm_compute. repeat split; reflexivity. Qed.

(** What the code counts: [attacked] is the number of squares occupied by
    a piece of either color that the opponent attacks, and [defended] the
    number of squares occupied by a piece of either color that the color
    itself attacks.  So [attacked] adds the color's own pieces attacked by
    the opponent and the opponent's pieces guarded by the opponent;
    [defended] adds the color's own guarded pieces and the opponent's
    pieces the color attacks. *)
Lemma balance_counts_occupied_squares (b : Board) (c : Color) :
  attacked (get_attacked_vs_defended_balance b c)
  = size (filter (is_attacked_by b (negb c)) (occupied_squares b))
  /\ defended (get_attacked_vs_defended_balance b c)
     = size (filter (is_attacked_by b c) (occupied_squares b))
  /\ attacked (get_attacked_vs_defended_balance b c)
     = own_attacked b c + own_defended b (negb c)
  /\ defended (get_attacked_vs_defended_balance b c)
     = own_defended b c + own_attacked b (negb c).
Proof.
  destruct (balance_occupied b c) as [Ha Hd].
  split; [exact Ha|]. split; [exact Hd|].
  rewrite Ha, Hd. unfold occupied_squares.
  rewrite (size_by_color b c (is_attacked_by b (negb c))).
  rewrite (size_by_color b c (is_attacked_by b c)).
  unfold own_attacked, own_defended, own_squares.
  rewrite negb_involutive. split; lia.
Qed.

(** The sibling loop [get_piece_coordination], which tests
    [piece.color == color], counts what the claim calls [defended]. *)
Lemma coordination_loop (b : Board) (c : Color) (l : list Square) :
  List.length
    (filter (fun sp : Square * Piece =>
               let (sq, piece) := sp in
               Bool.eqb (color piece) c && is_attacked_by b c sq)
            (flat_map (fun s => match piece_at b s with
                                | Some p => [(s, p)]
                                | None => []
                                end) l))
  = List.length (filter (is_attacked_by b c) (filter (has_color b c) l)).
Proof.
  induction l as [|x l IH]; [reflexivity|].
  cbn [flat_map filter]. unfold has_color at 1.
  destruct (piece_at b x) as [p|]; cbn [app filter]; [|exact IH].
  destruct (Bool.eqb (color p) c); cbn [andb filter];
    [destruct (is_attacked_by b c x); cbn [List.length]|]; now rewrite IH.
Qed.

Lemma coordination_over (b : Board) (c : Color) (l : list Square) :
  count_if (fun sp : Square * Piece =>
              let (sq, piece) := sp in
              Bool.eqb (color piece) c && is_attacked_by b c sq)
           (flat_map (fun s => match piece_at b s with
                               | Some p => [(s, p)]
                               | None => []
                               end) (rev l))
  = size (filter (is_attacked_by b c) (filter (has_color b c) l)).
Proof. rewrite count_if_filter, coordination_loop. apply size_filter_rev. Qed.

Lemma coordination_is_own_defended (b : Board) (c : Color) :
  get_piece_coordination b c = own_defended b c.
Proof.
  unfold get_piece_coordination, own_defended, own_squares, piece_map.
  exact (coordination_over b c SQUARES).
Qed.

(** The two colors' records hold the same two numbers, swapped. *)
Lemma balance_is_symmetric (b : Board) (c : Color) :
  attacked (get_attacked_vs_defended_balance b c)
  = defended (get_attacked_vs_defended_balance b (negb c)).
Proof.
  destruct (balance_occupied b c) as [Ha _].
  destruct (balance_occupied b (negb c)) as [_ Hd].
  now rewrite Ha, Hd.
Qed.

Example start_balance :
  get_attacked_vs_defended_balance start WHITE = mkBalance 14 14
  /\ own_defended start WHITE = 14.
Proof. vm_compute. auto. Qed.

End Pieces.

(* ===================================================================== *)
(** * The differ on equal bundles *)
(* ===================================================================== *)

Module DifferProofs.
Import Chess Features Differ Spec Positions Counting.

(** Induction on Python values, with the hypothesis on every item of a
    dictionary. *)
Lemma pyval_nested_ind (P : pyval -> Prop) :
  (forall n, P (VInt n)) ->
  (forall x, P (VBool x)) ->
  (forall s, P (VStr s)) ->
  (forall d, Forall (fun kv => P (snd kv)) d -> P (VDict d)) ->
  forall v, P v.
Proof.
  intros HInt HBool HStr HDict.
  fix IH 1. intros [n | x | s | d].
  - apply HInt.
  - apply HBool.
  - apply HStr.
  - apply HDict. induction d as [|[k w] rest IHd]; constructor.
    + simpl. apply IH.
    + exact IHd.
Qed.

Lemma well_formed_dict (d : dict) :
  well_formed (VDict d) = true
  <-> distinct (map fst d) = true
      /\ forall kv, In kv d -> well_formed (snd kv) = true.
Proof.
  simpl. rewrite andb_true_iff.
  apply and_iff_compat_l.
  induction d as [|[k w] rest IH].
  - split; [intros _ kv [] | reflexivity].
  - rewrite andb_true_iff, IH. split.
    + intros [Hw Hr] kv [<- | Hin]; [exact Hw | now apply Hr].
    + intros H. split; [apply (H (k, w)); now left|].
      intros kv Hin. apply H. now right.
Qed.

Lemma distinct_lookup (d : dict) (k : string) (v : pyval) :
  distinct (map fst d) = true -> In (k, v) d -> lookup k d = Some v.
Proof.
  induction d as [|[k0 v0] rest IH]; simpl; [intros _ []|].
  rewrite andb_true_iff, negb_true_iff. intros [Hk Hd] [E | Hin].
  - inversion E; subst. now rewrite String.eqb_refl.
  - destruct (String.eqb k0 k) eqn:Ek.
    + exfalso. assert (Hex : existsb (String.eqb k0) (map fst rest) = true).
      { apply existsb_exists. exists k. split; [|assumption].
        apply in_map_iff. now exists (k, v). }
      congruence.
    + now apply IH.
Qed.

Lemma py_ne_same (v : pyval) :
  match v with
  | VDict _ => True
  | _ => py_ne v v = false
  end.
Proof.
  destruct v; simpl; trivial.
  - now rewrite Z.eqb_refl.
  - now rewrite eqb_reflx.
  - now rewrite String.eqb_refl.
Qed.

(** The loop leaves [diff] as it is when every item it meets is an item
    of [f1] that compares unchanged. *)
Lemma compare_loop_same (f items diff : dict) :
  distinct (map fst f) = true ->
  (forall kv, In kv items -> In kv f) ->
  (forall kv, In kv items -> well_formed (snd kv) = true) ->
  Forall (fun kv => unchanged (snd kv)) items ->
  compare_loop compare_value (VDict f) items diff = Some diff.
Proof.
  intros Hd. revert diff.
  induction items as [|[key val2] rest IH]; intros diff Hsub Hwf Hall.
  - reflexivity.
  - assert (Hin : In (key, val2) f) by (apply Hsub; now left).
    assert (Hl : lookup key f = Some val2) by now apply distinct_lookup.
    assert (Hrest : compare_loop compare_value (VDict f) rest diff = Some diff).
    { apply IH.
      - intros kv H. apply Hsub. now right.
      - intros kv H. apply Hwf. now right.
      - now inversion Hall. }
    assert (Hun : unchanged val2) by (inversion Hall; assumption).
    assert (Hw : well_formed val2 = true) by (apply (Hwf (key, val2)); now left).
    specialize (Hun Hw).
    cbn [compare_loop py_contains py_getitem]. rewrite Hl.
    destruct val2 as [n | x | s | d]; cbn [snd] in *.
    + rewrite Hun. exact Hrest.
    + rewrite Hun. exact Hrest.
    + rewrite Hun. exact Hrest.
    + rewrite Hun. exact Hrest.
Qed.

Lemma compare_same (v : pyval) : unchanged v.
Proof.
  induction v as [n | x | s | d IH] using pyval_nested_ind; intros Hw.
  - exact (py_ne_same (VInt n)).
  - exact (py_ne_same (VBool x)).
  - exact (py_ne_same (VStr s)).
  - apply well_formed_dict in Hw. destruct Hw as [Hd Hall].
    cbn [compare_value]. apply compare_loop_same; auto.
Qed.

(** [compare_features(f, f)] is the empty dictionary for every dictionary
    of integers, booleans, strings and such dictionaries. *)
Lemma compare_features_same (f : dict) :
  well_formed (VDict f) = true -> compare_features (VDict f) f = Some [].
Proof. intros Hw. exact (compare_same (VDict f) Hw). Qed.

(** The bundle of a position has each key once at every level. *)
Lemma bundle_well_formed (b : Board) (f : dict) :
  _extract_all_features b = Some f -> well_formed (VDict f) = true.
Proof.
  unfold _extract_all_features.
  destruct (get_material b) as [wm bm].
  destruct (get_king_safety b WHITE); [|discriminate].
  destruct (get_king_safety b BLACK); [|discriminate].
  destruct (get_king_zone_control b WHITE); [|discriminate].
  destruct (get_king_zone_control b BLACK); [|discriminate].
  destruct (get_pawn_shield b WHITE); [|discriminate].
  destruct (get_pawn_shield b BLACK); [|discriminate].
  cbn [bind]. intros H. injection H as <-. reflexivity.
Qed.

(** On a valid position no feature raises. *)
Lemma extraction_total (b : Board) :
  valid_position b = true -> exists f, _extract_all_features b = Some f.
Proof.
  intros Hv.
  destruct (valid_king b WHITE Hv) as [kw [_ [Hkw _]]].
  destruct (valid_king b BLACK Hv) as [kb [_ [Hkb _]]].
  unfold _extract_all_features, get_king_safety, get_king_zone_control,
    get_pawn_shield.
  destruct (get_material b) as [wm bm]. rewrite Hkw, Hkb. cbn [bind].
  eexists. reflexivity.
Qed.

(** C2.  On every valid position the extraction returns a bundle, and the
    differ applied to that bundle and itself returns the empty dictionary:
    no key is reported at any nesting level. *)
Theorem diff_of_same_position_is_empty (b : Board) :
  valid_position b = true ->
  exists f,
    _extract_all_features b = Some f
    /\ compare_features (VDict f) f = Some [].
Proof.
  intros Hv. destruct (extraction_total b Hv) as [f Hf].
  exists f. split; [assumption|].
  apply compare_features_same. now apply (bundle_well_formed b).
Qed.

Lemma diff_of_same_position_is_empty_witness :
  valid_position start = true
  /\ exists f,
       _extract_all_features start = Some f
       /\ compare_features (VDict f) f = Some [].
Proof.
  split; [vm_compute; reflexivity|].
  apply (diff_of_same_position_is_empty start). vm_compute. reflexivity.
Defined.

(** The same at the entry point: a board-state string compared with
    itself. *)
Lemma decode_nonempty (fen : string) (b : Board) :
  decode fen = Some b -> truthy (Some fen) = Some fen.
Proof. destruct fen; [discriminate | reflexivity]. Qed.

Corollary extract_features_same_string (fen : string) (b : Board) :
  decode fen = Some b ->
  valid_position b = true ->
  extract_features fen (Some fen) = Some [].
Proof.
  intros Hd Hv. unfold extract_features.
  rewrite (decode_nonempty fen b Hd), Hd. cbn [bind].
  destruct (extraction_total b Hv) as [f Hf].
  rewrite Hf. cbn [bind].
  apply compare_features_same. now apply (bundle_well_formed b).
Qed.

(** The differ does report a changed leaf, and only that leaf. *)
Example knight_move_changes_development :
  option_map (lookup "development")
    (extract_features
       "rnbqkbnr/pppppppp/8/8/8/5N2/PPPPPPPP/RNBQKB1R b KQkq - 1 1"
       (Some start_fen))
  = Some (Some (VDict [("white"%string, VInt 1)]))
  /\ option_map (lookup "material")
       (extract_features
          "rnbqkbnr/pppppppp/8/8/8/5N2/PPPPPPPP/RNBQKB1R b KQkq - 1 1"
          (Some start_fen))
     = Some None.
Proof. vm_compute. auto. Qed.

End DifferProofs.

(* ===================================================================== *)
(** * The differ: what is reported, what is not, when it raises *)
(* ===================================================================== *)

Module DifferLaws.
Import Chess Features Differ Spec Positions Counting Laws.

Lemma lookup_dict_set_same (key : string) (v : pyval) (d : dict) :
  lookup key (dict_set key v d) = Some v.
Proof.
  induction d as [|[k w] rest IH]; simpl.
  - now rewrite String.eqb_refl.
  - destruct (String.eqb k key) eqn:E; simpl; rewrite E; [reflexivity | exact IH].
Qed.

Lemma lookup_dict_set_other (k key : string) (v : pyval) (d : dict) :
  String.eqb k key = false -> lookup key (dict_set k v d) = lookup key d.
Proof.
  intros Hne. induction d as [|[k0 w] rest IH]; simpl.
  - now rewrite Hne.
  - destruct (String.eqb k0 k) eqn:E; simpl.
    + apply String.eqb_eq in E. subst k0. now rewrite Hne.
    + destruct (String.eqb k0 key); [reflexivity | exact IH].
Qed.

Lemma lookup_absent (key : string) (d : dict) :
  existsb (String.eqb key) (map fst d) = false -> lookup key d = None.
Proof.
  induction d as [|[k w] rest IH]; simpl; [reflexivity|].
  rewrite orb_false_iff. intros [Hk Hr].
  rewrite String.eqb_sym, Hk. now apply IH.
Qed.

Lemma lookup_present (key : string) (d : dict) (v : pyval) :
  lookup key d = Some v -> In key (map fst d).
Proof.
  induction d as [|[k w] rest IH]; simpl; [discriminate|].
  destruct (String.eqb k key) eqn:E.
  - apply String.eqb_eq in E. now left.
  - intros H. right. now apply IH.
Qed.

(** The state of the loop after the item [(key, val2)]. *)
Lemma compare_loop_step (f1 : dict) (key : string) (val2 : pyval)
      (rest diff d : dict) :
  compare_loop compare_value (VDict f1) ((key, val2) :: rest) diff = Some d ->
  compare_loop compare_value (VDict f1) rest
    (match reported f1 key val2 with
     | Some r => dict_set key r diff
     | None => diff
     end) = Some d.
Proof.
  unfold reported. cbn [compare_loop py_contains py_getitem].
  destruct (lookup key f1) as [val1|]; [|exact (fun H => H)].
  destruct val2 as [n | x | s | d2].
  - destruct (py_ne val1 (VInt n)); exact (fun H => H).
  - destruct (py_ne val1 (VBool x)); exact (fun H => H).
  - destruct (py_ne val1 (VStr s)); exact (fun H => H).
  - destruct (compare_value val1 (VDict d2)) as [sub|]; [|discriminate].
    destruct (nonempty sub); exact (fun H => H).
Qed.

(** Every key of the result is a key met by the loop, with what the loop
    reported for it, or a key the accumulator held before. *)
Lemma compare_loop_lookup (f1 items : dict) :
  distinct (map fst items) = true ->
  forall diff d,
    compare_loop compare_value (VDict f1) items diff = Some d ->
    forall key,
      lookup key d
      = match lookup key items with
        | Some val2 =>
            match reported f1 key val2 with
            | Some r => Some r
            | None => lookup key diff
            end
        | None => lookup key diff
        end.
Proof.
  induction items as [|[k val2] rest IH]; intros Hd diff d H key.
  - cbn in H. injection H as <-. reflexivity.
  - cbn [map fst distinct] in Hd. apply andb_prop in Hd.
    destruct Hd as [Hk Hd]. apply negb_true_iff in Hk.
    apply compare_loop_step in H.
    rewrite (IH Hd _ _ H key). cbn [lookup].
    destruct (String.eqb k key) eqn:E.
    + apply String.eqb_eq in E. subst k.
      rewrite (lookup_absent key rest Hk).
      destruct (reported f1 key val2); [apply lookup_dict_set_same | reflexivity].
    + destruct (reported f1 k val2);
        [rewrite (lookup_dict_set_other k key _ diff E)|]; reflexivity.
Qed.

(** X1.  What [compare_features(f1, f2)] holds under each key, for an [f2]
    with each key once: nothing for a key that [f2] lacks (also when [f1]
    has it); the value of [f2] for a key that [f1] lacks; the new leaf for
    a leaf that changed, nothing for one that did not; the sub-diff for a
    record, nothing when that sub-diff is empty. *)
Theorem diff_by_key (f1 f2 d : dict) (key : string) :
  distinct (map fst f2) = true ->
  compare_features (VDict f1) f2 = Some d ->
  lookup key d
  = match lookup key f2 with
    | Some val2 => reported f1 key val2
    | None => None
    end.
Proof.
  intros Hd H. unfold compare_features in H. cbn [compare_value] in H.
  rewrite (compare_loop_lookup f1 f2 Hd [] d H key).
  destruct (lookup key f2) as [val2|]; [|reflexivity].
  destruct (reported f1 key val2); reflexivity.
Qed.

Lemma diff_by_key_witness :
  distinct (map fst new_bundle) = true
  /\ compare_features (VDict old_bundle) new_bundle
     = Some [("mobility", VInt 22);
             ("material", VDict [("black", VInt 38)]);
             ("tempo", VInt 1)]%string
  /\ lookup "material"
       [("mobility", VInt 22);
        ("material", VDict [("black", VInt 38)]);
        ("tempo", VInt 1)]%string
     = match lookup "material" new_bundle with
       | Some val2 => reported old_bundle "material" val2
       | None => None
       end.
Proof.
  split; [reflexivity|]. split; [reflexivity|].
  apply (diff_by_key old_bundle new_bundle); reflexivity.
Defined.

Lemma distinct_NoDup (l : list string) : distinct l = true -> NoDup l.
Proof.
  induction l as [|k rest IH]; simpl; intros H; constructor.
  - apply andb_prop in H. destruct H as [H _]. apply negb_true_iff in H.
    intros Hin. assert (E : existsb (String.eqb k) rest = true).
    { apply existsb_exists. exists k. split; [assumption | apply String.eqb_refl]. }
    congruence.
  - apply IH. now apply andb_prop in H.
Qed.

Lemma dict_set_fresh (key : string) (v : pyval) (d : dict) :
  ~ In key (map fst d) -> dict_set key v d = d ++ [(key, v)].
Proof.
  induction d as [|[k w] rest IH]; simpl; intros H; [reflexivity|].
  destruct (String.eqb k key) eqn:E.
  - apply String.eqb_eq in E. tauto.
  - f_equal. apply IH. tauto.
Qed.

Lemma compare_loop_all_new (f1 items diff : dict) :
  (forall key, In key (map fst items) -> lookup key f1 = None) ->
  NoDup (map fst (diff ++ items)) ->
  compare_loop compare_value (VDict f1) items diff = Some (diff ++ items).
Proof.
  revert diff. induction items as [|[k v] rest IH]; intros diff Hnew Hnd.
  - cbn. now rewrite app_nil_r.
  - cbn [compare_loop py_contains].
    rewrite (Hnew k (or_introl eq_refl)).
    assert (Hfresh : ~ In k (map fst diff)).
    { rewrite map_app in Hnd. cbn [map fst] in Hnd.
      apply NoDup_remove_2 in Hnd. intros Hin. apply Hnd.
      apply in_or_app. now left. }
    rewrite (dict_set_fresh k v diff Hfresh).
    replace (diff ++ (k, v) :: rest) with ((diff ++ [(k, v)]) ++ rest)
      by (rewrite <- app_assoc; reflexivity).
    apply IH.
    + intros key Hin. apply Hnew. now right.
    + rewrite <- app_assoc. exact Hnd.
Qed.

(** X2.  When [f1] holds none of the keys of [f2] (an empty [f1], for
    one), [compare_features(f1, f2)] is [f2] itself, item by item and in
    the same order: every key is new and is copied with its value. *)
Theorem diff_of_new_keys (f1 f2 : dict) :
  distinct (map fst f2) = true ->
  (forall key, In key (map fst f2) -> lookup key f1 = None) ->
  compare_features (VDict f1) f2 = Some f2.
Proof.
  intros Hd Hnew. unfold compare_features. cbn [compare_value].
  apply (compare_loop_all_new f1 f2 [] Hnew). cbn [app].
  now apply distinct_NoDup.
Qed.

Lemma diff_of_new_keys_witness :
  distinct (map fst new_bundle) = true
  /\ (forall key, In key (map fst new_bundle) -> lookup key [] = None)
  /\ compare_features (VDict []) new_bundle = Some new_bundle.
Proof.
  split; [reflexivity|]. split; [reflexivity|].
  apply (diff_of_new_keys [] new_bundle); reflexivity.
Defined.

Lemma compare_loop_raises (f1 : dict) (key : string) (v1 : pyval)
      (kv : string * pyval) (r : dict) (items : dict) :
  is_number v1 = true ->
  lookup key f1 = Some v1 ->
  In (key, VDict (kv :: r)) items ->
  forall diff, compare_loop compare_value (VDict f1) items diff = None.
Proof.
  intros Hn Hl. induction items as [|[k val2] rest IH]; intros Hin diff.
  - contradiction.
  - destruct (compare_loop compare_value (VDict f1) ((k, val2) :: rest) diff)
      as [d|] eqn:H; [|reflexivity].
    exfalso. destruct Hin as [E | Hin].
    + injection E as -> ->. revert H.
      cbn [compare_loop py_contains py_getitem]. rewrite Hl.
      destruct kv as [k' w'].
      destruct v1; try discriminate; cbn; discriminate.
    + apply compare_loop_step in H. rewrite (IH Hin) in H. discriminate.
Qed.

(** X3.  [compare_features] raises when a key holds a number in [f1] and a
    non-empty record in [f2]: the recursive call tests [key in f1] on the
    number.  No other item of the two bundles prevents it. *)
Theorem diff_raises_on_reshaped_leaf
        (f1 f2 : dict) (key : string) (v1 : pyval) (kv : string * pyval) (r : dict) :
  is_number v1 = true ->
  lookup key f1 = Some v1 ->
  In (key, VDict (kv :: r)) f2 ->
  compare_features (VDict f1) f2 = None.
Proof.
  intros Hn Hl Hin. unfold compare_features. cbn [compare_value].
  now apply (compare_loop_raises f1 key v1 kv r f2).
Qed.

Lemma diff_raises_on_reshaped_leaf_witness :
  is_number (VInt 20) = true
  /\ lookup "mobility" old_bundle = Some (VInt 20)
  /\ In ("mobility"%string, VDict [("white"%string, VInt 20)]) reshaped_bundle
  /\ compare_features (VDict old_bundle) reshaped_bundle = None.
Proof.
  split; [reflexivity|]. split; [reflexivity|]. split; [now left|].
  apply (diff_raises_on_reshaped_leaf old_bundle reshaped_bundle "mobility"
           (VInt 20) ("white"%string, VInt 20) []);
    [reflexivity | reflexivity | now left].
Defined.

(** ** Bundles of the same shape *)

Lemma same_shape_items (d1 d2 : dict) :
  same_shape (VDict d1) (VDict d2) = true ->
  forall key w2, In (key, w2) d2 ->
                 exists w1, In (key, w1) d1 /\ same_shape w1 w2 = true.
Proof.
  revert d2. induction d1 as [|[k1 w1] r1 IH]; intros [|[k2 w2] r2] H key w Hin;
    try contradiction; try discriminate.
  cbn [same_shape] in H. apply andb_prop in H. destruct H as [H Hr].
  apply andb_prop in H. destruct H as [Hk Hw]. apply String.eqb_eq in Hk. subst k2.
  destruct Hin as [E | Hin].
  - injection E as <- <-. exists w1. split; [now left | exact Hw].
  - destruct (IH r2 Hr key w Hin) as [w' [Hin' Hs]].
    exists w'. split; [now right | exact Hs].
Qed.

Lemma compare_loop_returns (d1 items : dict) :
  (forall key w2, In (key, w2) items ->
                  exists w1, lookup key d1 = Some w1
                             /\ same_shape w1 w2 = true
                             /\ well_formed w1 = true) ->
  Forall (fun kv => comparable (snd kv)) items ->
  forall diff, exists d,
      compare_loop compare_value (VDict d1) items diff = Some d.
Proof.
  induction items as [|[key w2] rest IH]; intros Hitems Hall diff.
  - exists diff. reflexivity.
  - destruct (Hitems key w2 (or_introl eq_refl)) as [w1 [Hl [Hs Hw]]].
    assert (Hrest : forall diff', exists d,
                 compare_loop compare_value (VDict d1) rest diff' = Some d).
    { apply IH; [|now inversion Hall].
      intros k w Hin. apply Hitems. now right. }
    assert (Hc : comparable w2) by (inversion Hall; assumption).
    specialize (Hc w1 Hs Hw).
    cbn [compare_loop py_contains py_getitem]. rewrite Hl.
    destruct w2 as [n | x | s | d2]; try apply Hrest.
    destruct Hc as [sub Hsub]. rewrite Hsub. apply Hrest.
Qed.

Lemma same_shape_comparable (v2 : pyval) : comparable v2.
Proof.
  induction v2 as [n | x | s | d2 IH] using DifferProofs.pyval_nested_ind;
    intros v1 Hs Hw; trivial.
  destruct v1 as [n1 | x1 | s1 | d1]; try discriminate.
  apply DifferProofs.well_formed_dict in Hw. destruct Hw as [Hd Hall].
  cbn [compare_value]. apply compare_loop_returns; [|exact IH].
  intros key w2 Hin.
  destruct (same_shape_items d1 d2 Hs key w2 Hin) as [w1 [Hin1 Hs1]].
  exists w1. repeat split.
  - now apply DifferProofs.distinct_lookup.
  - exact Hs1.
  - exact (Hall (key, w1) Hin1).
Qed.

(** Two extracted bundles have the same shape, whatever the positions. *)
Lemma bundles_same_shape (b1 b2 : Board) (f1 f2 : dict) :
  _extract_all_features b1 = Some f1 ->
  _extract_all_features b2 = Some f2 ->
  same_shape (VDict f1) (VDict f2) = true.
Proof.
  unfold _extract_all_features.
  destruct (get_material b1) as [wm1 bm1].
  destruct (get_material b2) as [wm2 bm2].
  destruct (get_king_safety b1 WHITE); [|discriminate].
  destruct (get_king_safety b1 BLACK); [|discriminate].
  destruct (get_king_zone_control b1 WHITE); [|discriminate].
  destruct (get_king_zone_control b1 BLACK); [|discriminate].
  destruct (get_pawn_shield b1 WHITE); [|discriminate].
  destruct (get_pawn_shield b1 BLACK); [|discriminate].
  destruct (get_king_safety b2 WHITE); [|discriminate].
  destruct (get_king_safety b2 BLACK); [|discriminate].
  destruct (get_king_zone_control b2 WHITE); [|discriminate].
  destruct (get_king_zone_control b2 BLACK); [|discriminate].
  destruct (get_pawn_shield b2 WHITE); [|discriminate].
  destruct (get_pawn_shield b2 BLACK); [|discriminate].
  cbn [bind]. intros H1 H2. injection H1 as <-. injection H2 as <-.
  reflexivity.
Qed.

Lemma bundle_keys (b : Board) (f : dict) :
  _extract_all_features b = Some f -> map fst f = feature_names.
Proof.
  unfold _extract_all_features.
  destruct (get_material b) as [wm bm].
  destruct (get_king_safety b WHITE); [|discriminate].
  destruct (get_king_safety b BLACK); [|discriminate].
  destruct (get_king_zone_control b WHITE); [|discriminate].
  destruct (get_king_zone_control b BLACK); [|discriminate].
  destruct (get_pawn_shield b WHITE); [|discriminate].
  destruct (get_pawn_shield b BLACK); [|discriminate].
  cbn [bind]. intros H. injection H as <-. reflexivity.
Qed.

Lemma bundle_mobility (b : Board) (f : dict) :
  _extract_all_features b = Some f ->
  lookup "mobility" f = Some (VInt (get_mobility b)).
Proof.
  unfold _extract_all_features.
  destruct (get_material b) as [wm bm].
  destruct (get_king_safety b WHITE); [|discriminate].
  destruct (get_king_safety b BLACK); [|discriminate].
  destruct (get_king_zone_control b WHITE); [|discriminate].
  destruct (get_king_zone_control b BLACK); [|discriminate].
  destruct (get_pawn_shield b WHITE); [|discriminate].
  destruct (get_pawn_shield b BLACK); [|discriminate].
  cbn [bind]. intros H. injection H as <-. reflexivity.
Qed.

Lemma bundle_development (b : Board) (f : dict) :
  _extract_all_features b = Some f ->
  lookup "development" f = Some (ints get_development b).
Proof.
  unfold _extract_all_features.
  destruct (get_material b) as [wm bm].
  destruct (get_king_safety b WHITE); [|discriminate].
  destruct (get_king_safety b BLACK); [|discriminate].
  destruct (get_king_zone_control b WHITE); [|discriminate].
  destruct (get_king_zone_control b BLACK); [|discriminate].
  destruct (get_pawn_shield b WHITE); [|discriminate].
  destruct (get_pawn_shield b BLACK); [|discriminate].
  cbn [bind]. intros H. injection H as <-. reflexivity.
Qed.

Lemma bundle_distinct (b : Board) (f : dict) :
  _extract_all_features b = Some f -> distinct (map fst f) = true.
Proof.
  intros H. rewrite (bundle_keys b f H). reflexivity.
Qed.

(** X4.  The diff of the bundles of two valid positions is always
    returned: [compare_features] never raises on them.  Every key of the
    diff is one of the twenty-five feature names. *)
Theorem diff_of_two_positions_returns (b1 b2 : Board) :
  valid_position b1 = true ->
  valid_position b2 = true ->
  exists f1 f2 d,
    _extract_all_features b1 = Some f1
    /\ _extract_all_features b2 = Some f2
    /\ compare_features (VDict f1) f2 = Some d
    /\ forall key v, lookup key d = Some v -> In key feature_names.
Proof.
  intros V1 V2.
  destruct (DifferProofs.extraction_total b1 V1) as [f1 H1].
  destruct (DifferProofs.extraction_total b2 V2) as [f2 H2].
  pose proof (same_shape_comparable (VDict f2) (VDict f1)
                (bundles_same_shape b1 b2 f1 f2 H1 H2)
                (DifferProofs.bundle_well_formed b1 f1 H1)) as [d Hd].
  exists f1, f2, d. repeat split; try assumption.
  intros key v Hk.
  unfold compare_features in *. cbn [compare_value] in Hd.
  rewrite (compare_loop_lookup f1 f2 (bundle_distinct b2 f2 H2) [] d Hd key) in Hk.
  rewrite <- (bundle_keys b2 f2 H2).
  destruct (lookup key f2) as [val2|] eqn:E; [|discriminate].
  now apply (lookup_present key f2 val2).
Qed.

Lemma diff_of_two_positions_returns_witness :
  valid_position start = true
  /\ valid_position after_nf3 = true
  /\ exists f1 f2 d,
       _extract_all_features start = Some f1
       /\ _extract_all_features after_nf3 = Some f2
       /\ compare_features (VDict f1) f2 = Some d
       /\ forall key v, lookup key d = Some v -> In key feature_names.
Proof.
  split; [vm_compute; reflexivity|]. split; [vm_compute; reflexivity|].
  apply (diff_of_two_positions_returns start after_nf3); vm_compute; reflexivity.
Defined.

(** X5.  In the diff of two extracted bundles, [mobility] is present
    exactly when the two positions differ in their number of legal moves,
    and then with the number of the second position. *)
Theorem diff_reports_mobility (b1 b2 : Board) (f1 f2 d : dict) :
  _extract_all_features b1 = Some f1 ->
  _extract_all_features b2 = Some f2 ->
  compare_features (VDict f1) f2 = Some d ->
  lookup "mobility" d
  = if get_mobility b1 =? get_mobility b2 then None
    else Some (VInt (get_mobility b2)).
Proof.
  intros H1 H2 Hd. unfold compare_features in Hd. cbn [compare_value] in Hd.
  rewrite (compare_loop_lookup f1 f2 (bundle_distinct b2 f2 H2) [] d Hd).
  rewrite (bundle_mobility b2 f2 H2). unfold reported.
  rewrite (bundle_mobility b1 f1 H1). cbn [py_ne lookup].
  destruct (get_mobility b1 =? get_mobility b2); reflexivity.
Qed.

Lemma diff_reports_mobility_witness :
  exists f1 f2 d,
    _extract_all_features start = Some f1
    /\ _extract_all_features after_e4_e5 = Some f2
    /\ compare_features (VDict f1) f2 = Some d
    /\ lookup "mobility" d
       = if get_mobility start =? get_mobility after_e4_e5 then None
         else Some (VInt (get_mobility after_e4_e5)).
Proof.
  eexists. eexists. eexists.
  split; [vm_compute; reflexivity|].
  split; [vm_compute; reflexivity|].
  split; [vm_compute; reflexivity|].
  eapply (diff_reports_mobility start after_e4_e5); vm_compute; reflexivity.
Defined.

Example start_to_e4_e5_mobility :
  get_mobility start = 20 /\ get_mobility after_e4_e5 = 29.
Proof. vm_compute. auto. Qed.

Example start_to_nf3_mobility :
  option_map (lookup "mobility") (extract_features
    "rnbqkbnr/pppppppp/8/8/8/5N2/PPPPPPPP/RNBQKB1R b KQkq - 1 1" (Some start_fen))
  = Some None.
Proof. vm_compute. reflexivity. Qed.

(** The diff of two per-color records of integers. *)
Lemma compare_per_color (w1 b1 w2 b2 : Z) :
  compare_value (per_color (VInt w1) (VInt b1)) (per_color (VInt w2) (VInt b2))
  = Some (changed_colors w1 b1 w2 b2).
Proof.
  unfold changed_colors. cbn.
  destruct (w1 =? w2), (b1 =? b2); reflexivity.
Qed.

(** X6.  In the diff of two extracted bundles, [development] holds the
    colors whose development count changed, each with its new count, and
    is absent when neither changed. *)
Theorem diff_reports_development (b1 b2 : Board) (f1 f2 d : dict) :
  _extract_all_features b1 = Some f1 ->
  _extract_all_features b2 = Some f2 ->
  compare_features (VDict f1) f2 = Some d ->
  lookup "development" d
  = let changed :=
        changed_colors (get_development b1 WHITE) (get_development b1 BLACK)
                       (get_development b2 WHITE) (get_development b2 BLACK) in
    if nonempty changed then Some (VDict changed) else None.
Proof.
  intros H1 H2 Hd. unfold compare_features in Hd. cbn [compare_value] in Hd.
  rewrite (compare_loop_lookup f1 f2 (bundle_distinct b2 f2 H2) [] d Hd).
  rewrite (bundle_development b2 f2 H2). unfold reported.
  rewrite (bundle_development b1 f1 H1). unfold ints.
  change (per_color (VInt (get_development b2 WHITE))
                    (VInt (get_development b2 BLACK)))
    with (VDict [("white"%string, VInt (get_development b2 WHITE));
                 ("black"%string, VInt (get_development b2 BLACK))]) at 1.
  cbv iota beta.
  change (VDict [("white"%string, VInt (get_development b2 WHITE));
                 ("black"%string, VInt (get_development b2 BLACK))])
    with (per_color (VInt (get_development b2 WHITE))
                    (VInt (get_development b2 BLACK))).
  rewrite compare_per_color.
  destruct (nonempty _); reflexivity.
Qed.

Lemma diff_reports_development_witness :
  exists f1 f2 d,
    _extract_all_features start = Some f1
    /\ _extract_all_features after_nf3 = Some f2
    /\ compare_features (VDict f1) f2 = Some d
    /\ lookup "development" d
       = let changed :=
             changed_colors (get_development start WHITE)
                            (get_development start BLACK)
                            (get_development after_nf3 WHITE)
                            (get_development after_nf3 BLACK) in
         if nonempty changed then Some (VDict changed) else None.
Proof.
  eexists. eexists. eexists.
  split; [vm_compute; reflexivity|].
  split; [vm_compute; reflexivity|].
  split; [vm_compute; reflexivity|].
  eapply (diff_reports_development start after_nf3); vm_compute; reflexivity.
Defined.

(** X7.  [_extract_all_features] raises exactly on a board that lacks the
    king of some color (the king-based features index a table with
    [None]); on every other board it returns a bundle. *)
Theorem extraction_raises_iff_king_missing (b : Board) :
  _extract_all_features b = None
  <-> king b WHITE = None \/ king b BLACK = None.
Proof.
  unfold _extract_all_features, get_king_safety, get_king_zone_control,
    get_pawn_shield.
  destruct (get_material b) as [wm bm].
  destruct (king b WHITE) as [kw|], (king b BLACK) as [kb|]; cbn [bind]; split;
    try discriminate; try tauto.
  intros [H | H]; discriminate.
Qed.

(** One step of the loop reads [f1] through its lookups only. *)
Lemma compare_loop_same_lookups (f1 f1' items : dict) :
  (forall key, lookup key f1 = lookup key f1') ->
  forall diff,
    compare_loop compare_value (VDict f1) items diff
    = compare_loop compare_value (VDict f1') items diff.
Proof.
  intros H. induction items as [|[key val2] rest IH]; intros diff; [reflexivity|].
  cbn [compare_loop py_contains py_getitem]. rewrite <- (H key).
  destruct (lookup key f1) as [val1|]; [|apply IH].
  destruct val2 as [n | x | s | d2]; try apply IH.
  destruct (compare_value val1 (VDict d2)); [apply IH | reflexivity].
Qed.

(** X24.  [compare_features] reads the old bundle through its lookups
    only: two old bundles that hold the same value under every key (the
    same items in another order, for one) give the same diff, or both
    raise. *)
Theorem diff_ignores_order_of_old_bundle (f1 f1' f2 : dict) :
  (forall key, lookup key f1 = lookup key f1') ->
  compare_features (VDict f1) f2 = compare_features (VDict f1') f2.
Proof.
  intros H. unfold compare_features. cbn [compare_value].
  now apply compare_loop_same_lookups.
Qed.

Lemma diff_ignores_order_of_old_bundle_witness :
  (forall key, lookup key old_bundle = lookup key old_bundle_reordered)
  /\ compare_features (VDict old_bundle) new_bundle
     = compare_features (VDict old_bundle_reordered) new_bundle.
Proof.
  assert (H : forall key, lookup key old_bundle = lookup key old_bundle_reordered).
  { intros key. unfold old_bundle, old_bundle_reordered. cbn [lookup].
    destruct (String.eqb_spec "mobility" key) as [<-|]; [reflexivity|].
    destruct (String.eqb_spec "king_safety" key) as [<-|]; [reflexivity|].
    destruct (String.eqb_spec "material" key) as [<-|]; reflexivity. }
  split; [exact H|].
  apply (diff_ignores_order_of_old_bundle old_bundle old_bundle_reordered new_bundle).
  exact H.
Defined.

End DifferLaws.

(* ===================================================================== *)
(** * The feature bank: relations between features, and their ranges *)
(* ===================================================================== *)

Module FeatureLaws.
Import Chess Features Spec Positions Counting Laws.

Lemma count_if_bounds {A} (f : A -> bool) (l : list A) :
  0 <= count_if f l <= Z.of_nat (List.length l).
Proof.
  rewrite count_if_filter. split; [lia|].
  apply inj_le. apply filter_length_le.
Qed.

Lemma py_sum_b2z {A} (f : A -> bool) (l : list A) :
  py_sum (map (fun x => b2z (f x)) l) = count_if f l.
Proof.
  rewrite count_if_filter.
  induction l as [|x l IH]; [reflexivity|].
  cbn [map filter]. rewrite py_sum_cons, IH.
  destruct (f x); cbn [b2z List.length]; lia.
Qed.

Lemma is_piece_at (b : Board) (pt : PieceType) (c : Color) (s : Square) (p : Piece) :
  piece_at b s = Some p ->
  is_piece b pt c s = PieceType_eqb (piece_type p) pt && Bool.eqb (color p) c.
Proof. intros H. unfold is_piece. now rewrite H. Qed.

Lemma is_piece_empty (b : Board) (pt : PieceType) (c : Color) (s : Square) :
  piece_at b s = None -> is_piece b pt c s = false.
Proof. intros H. unfold is_piece. now rewrite H. Qed.

(** The material loop over any list of squares. *)
Lemma material_loop (b : Board) (l : list Square) (w k : Z) :
  let n pt c := Z.of_nat (List.length (filter (is_piece b pt c) l)) in
  fold_left
    (fun (acc : Z * Z) sq =>
       let (white_material, black_material) := acc in
       match piece_at b sq with
       | Some piece =>
           let val := piece_values (piece_type piece) in
           if Bool.eqb (color piece) WHITE
           then (white_material + val, black_material)
           else (white_material, black_material + val)
       | None => acc
       end)
    l (w, k)
  = (w + (n PAWN WHITE + 3 * n KNIGHT WHITE + 3 * n BISHOP WHITE
          + 5 * n ROOK WHITE + 9 * n QUEEN WHITE),
     k + (n PAWN BLACK + 3 * n KNIGHT BLACK + 3 * n BISHOP BLACK
          + 5 * n ROOK BLACK + 9 * n QUEEN BLACK)).
Proof.
  cbv zeta. unfold WHITE, BLACK. revert w k.
  induction l as [|x l IH]; intros w k.
  - cbn. f_equal; lia.
  - cbn [fold_left filter].
    destruct (piece_at b x) as [[pt col]|] eqn:Hp.
    + rewrite !(is_piece_at b _ _ x _ Hp).
      destruct pt, col;
        cbn [piece_type color PieceType_eqb Bool.eqb andb piece_values];
        rewrite IH; cbn [List.length]; f_equal; lia.
    + rewrite !(is_piece_empty b _ _ x Hp). apply IH.
Qed.

(** X8.  [get_material] returns, for each color, the number of its pawns
    plus three times its knights and bishops, five times its rooks and
    nine times its queens; kings count for nothing. *)
Theorem material_by_piece_count (b : Board) :
  get_material b = (material_of b WHITE, material_of b BLACK).
Proof.
  unfold get_material. rewrite material_loop.
  unfold material_of, piece_count, pieces, size.
  rewrite !Z.add_0_l. reflexivity.
Qed.

(** X9.  [get_isolated_weakness_clusters] and the [isolated] component of
    [get_pawn_structure] are the same number on every board. *)
Theorem clusters_equal_isolated (b : Board) (c : Color) :
  get_isolated_weakness_clusters b c = isolated (get_pawn_structure b c).
Proof.
  unfold get_isolated_weakness_clusters, get_pawn_structure. cbn [isolated].
  symmetry.
  apply (py_sum_b2z
           (fun f => forallb (fun other => 1 <? Z.abs (f - other))
                             (filter (fun other => negb (other =? f))
                                     (set_of (map square_file (pieces b PAWN c)))))).
Qed.

(** The loop over [[chess.ROOK, chess.QUEEN]] runs the inner loop on the
    rooks, then on the queens. *)
Lemma rook_queen_loop (P : PieceType -> list Square) (g : Z -> Square -> Z) (n : Z) :
  fold_left (fun acc pt => fold_left g (P pt) acc) [ROOK; QUEEN] n
  = fold_left g (P QUEEN) (fold_left g (P ROOK) n).
Proof. reflexivity. Qed.

(** X10.  [get_open_file_control] is [get_rook_activity] plus the queens
    of the color on files without pawns; so it is never below
    [get_rook_activity]. *)
Theorem open_file_control_splits (b : Board) (c : Color) :
  get_open_file_control b c
  = get_rook_activity b c + queens_on_open_files b c
  /\ get_rook_activity b c <= get_open_file_control b c.
Proof.
  assert (E : get_open_file_control b c
              = get_rook_activity b c + queens_on_open_files b c).
  { unfold get_open_file_control, get_rook_activity, queens_on_open_files,
      count_if.
    rewrite (rook_queen_loop
               (fun pt => pieces b pt c)
               (fun controlled sq =>
                  if negb (pawn_on_file b (square_file sq))
                  then controlled + 1 else controlled)).
    generalize (pieces b QUEEN c) (pieces b ROOK c). intros queens rooks.
    rewrite (count_if_from (fun sq => negb (pawn_on_file b (square_file sq)))
                           queens
                           (fold_left
                              (fun controlled sq =>
                                 if negb (pawn_on_file b (square_file sq))
                                 then controlled + 1 else controlled) rooks 0)).
    rewrite (count_if_from (fun sq => negb (pawn_on_file b (square_file sq)))
                           queens 0).
    rewrite Z.add_0_l. reflexivity. }
  split; [exact E|]. rewrite E.
  pose proof (count_if_bounds (fun q => negb (pawn_on_file b (square_file q)))
                              (pieces b QUEEN c)) as H.
  unfold queens_on_open_files. destruct H as [H _]. revert H.
  generalize (count_if (fun q => negb (pawn_on_file b (square_file q)))
                       (pieces b QUEEN c)) (get_rook_activity b c).
  intros q r H. lia.
Qed.

(** Every element of a list is counted by exactly one of three loops:
    those with [a], those without [a] and without [o], those without [a]
    and with [o]. *)
Lemma three_way_count {A} (a o : A -> bool) (l : list A) :
  count_if a l + count_if (fun x => negb (a x) && negb (o x)) l
  + count_if (fun x => negb (a x) && o x) l
  = Z.of_nat (List.length l).
Proof.
  rewrite !count_if_filter.
  induction l as [|x l IH]; [reflexivity|].
  cbn [filter]. destruct (a x), (o x); cbn [negb andb List.length]; lia.
Qed.

(** X11.  Each of the four central squares is counted once: as controlled
    by the color, as weak, or as occupied without being attacked by the
    color.  So [get_center_control] and [get_weak_squares] add up to at
    most 4. *)
Theorem center_squares_partition (b : Board) (c : Color) :
  get_center_control b c + get_weak_squares b c
  + occupied_unattacked_center b c = 4
  /\ 0 <= get_center_control b c
  /\ 0 <= get_weak_squares b c
  /\ get_center_control b c + get_weak_squares b c <= 4.
Proof.
  pose proof (three_way_count (is_attacked_by b c) (occupied b) center) as E.
  pose proof (count_if_bounds (is_attacked_by b c) center) as H1.
  pose proof (count_if_bounds (fun sq => negb (is_attacked_by b c sq)
                                         && negb (occupied b sq)) center) as H2.
  pose proof (count_if_bounds (fun sq => negb (is_attacked_by b c sq)
                                         && occupied b sq) center) as H3.
  assert (Hc : get_center_control b c = count_if (is_attacked_by b c) center).
  { unfold get_center_control. apply (py_sum_b2z (is_attacked_by b c)). }
  rewrite Hc. unfold get_weak_squares, occupied_unattacked_center.
  change (Z.of_nat (List.length center)) with 4 in E.
  destruct H1 as [H1 _], H2 as [H2 _], H3 as [H3 _].
  revert E H1 H2 H3.
  generalize (count_if (is_attacked_by b c) center)
             (count_if (fun sq => negb (is_attacked_by b c sq)
                                  && negb (occupied b sq)) center)
             (count_if (fun sq => negb (is_attacked_by b c sq)
                                  && occupied b sq) center).
  intros x y z E H1 H2 H3. lia.
Qed.

(** Two loops over disjoint conditions, both inside a third, count at
    most what the third counts. *)
Lemma disjoint_counts {A} (f g h : A -> bool) (l : list A) :
  (forall x, f x = true -> g x = false) ->
  (forall x, f x = true -> h x = true) ->
  (forall x, g x = true -> h x = true) ->
  count_if f l + count_if g l <= count_if h l.
Proof.
  intros Hfg Hfh Hgh. rewrite !count_if_filter.
  induction l as [|x l IH]; [reflexivity|].
  cbn [filter]. specialize (Hfg x). specialize (Hfh x). specialize (Hgh x).
  destruct (f x), (g x), (h x); cbn [List.length];
    try (specialize (Hfg eq_refl); discriminate);
    try (specialize (Hfh eq_refl); discriminate);
    try (specialize (Hgh eq_refl); discriminate); lia.
Qed.

(** X12.  No piece is counted both by [get_hanging_pieces] and by
    [get_piece_coordination], and both count pieces of the color only:
    their sum is at most the number of pieces of that color. *)
Theorem hanging_and_coordinated_are_disjoint (b : Board) (c : Color) :
  0 <= get_hanging_pieces b c
  /\ 0 <= get_piece_coordination b c
  /\ get_hanging_pieces b c + get_piece_coordination b c <= own_piece_count b c.
Proof.
  unfold get_hanging_pieces, get_piece_coordination, own_piece_count.
  generalize (piece_map b). intros l.
  split; [apply count_if_bounds|]. split; [apply count_if_bounds|].
  apply disjoint_counts; intros [sq piece]; cbn [snd];
    destruct (Bool.eqb (color piece) c), (is_attacked_by b c sq),
      (is_attacked_by b (negb c) sq); cbn [andb negb]; congruence.
Qed.

Lemma step_attacks_length (sq : Square) (deltas : list Z) :
  (List.length (step_attacks sq deltas) <= List.length deltas)%nat.
Proof.
  unfold step_attacks, sliding_attacks.
  induction deltas as [|d r IH]; [reflexivity|].
  cbn [flat_map List.length]. rewrite length_app.
  assert (H : (List.length (slide (fun _ => true) d sq 7) <= 1)%nat).
  { cbn [slide].
    destruct (negb (on_board (sq + d)) || (2 <? square_distance (sq + d) sq));
      cbn [List.length]; lia. }
  lia.
Qed.

(** X13.  [get_pawn_shield] and [get_king_zone_control] raise exactly when
    the color has no king; otherwise the shield is a number from 0 to 3
    and the zone control a number from 0 to 8. *)
Theorem king_features_ranges (b : Board) (c : Color) :
  match get_pawn_shield b c with
  | Some n => 0 <= n <= 3 /\ king b c <> None
  | None => king b c = None
  end
  /\ match get_king_zone_control b c with
     | Some n => 0 <= n <= 8 /\ king b c <> None
     | None => king b c = None
     end.
Proof.
  unfold get_pawn_shield, get_king_zone_control.
  destruct (king b c) as [k|]; [|split; reflexivity].
  split.
  - split; [|discriminate].
    apply (count_if_bounds _ [square_file k - 1; square_file k; square_file k + 1]).
  - split; [|discriminate].
    rewrite (py_sum_b2z (is_attacked_by b c) (BB_KING_ATTACKS k)).
    pose proof (count_if_bounds (is_attacked_by b c) (BB_KING_ATTACKS k)) as H.
    pose proof (step_attacks_length k [9; 8; 7; 1; -9; -8; -7; -1]) as L.
    unfold BB_KING_ATTACKS in *. cbn [List.length] in L.
    revert H L.
    generalize (count_if (is_attacked_by b c)
                         (step_attacks k [9; 8; 7; 1; -9; -8; -7; -1]))
               (List.length (step_attacks k [9; 8; 7; 1; -9; -8; -7; -1])).
    intros x n H L. lia.
Qed.

Lemma filter_map_length {A B} (P : B -> bool) (g : A -> B) (l : list A) :
  List.length (filter P (map g l)) = List.length (filter (fun x => P (g x)) l).
Proof.
  induction l as [|x l IH]; [reflexivity|].
  cbn [map filter]. destruct (P (g x)); cbn [List.length]; now rewrite IH.
Qed.

(** The two nested loops over ranks and files count the squares they
    visit that satisfy the test. *)
Lemma nested_count (P : Square -> bool) (files ranks : list Z) (n : Z) :
  fold_left
    (fun control rank =>
       fold_left
         (fun control file =>
            if P (square file rank) then control + 1 else control)
         files control)
    ranks n
  = n + Z.of_nat (List.length
                    (filter P (flat_map (fun rank =>
                                           map (fun file => square file rank) files)
                                        ranks))).
Proof.
  revert n. induction ranks as [|rank ranks IH]; intros n.
  - cbn. lia.
  - cbn [fold_left flat_map]. rewrite IH.
    rewrite (count_if_from (fun file => P (square file rank)) files n).
    rewrite filter_app, length_app, filter_map_length. lia.
Qed.

Lemma far_half_squares (c : Color) :
  flat_map (fun rank => map (fun file => square file rank) (range 0 8))
           (if Bool.eqb c WHITE then range 4 8 else range 0 4)
  = filter (in_far_half c) SQUARES.
Proof. destruct c; vm_compute; reflexivity. Qed.

Lemma far_half_size (c : Color) :
  List.length (filter (in_far_half c) SQUARES) = 32%nat.
Proof. destruct c; vm_compute; reflexivity. Qed.

(** X14.  [get_space_advantage] is the number of squares of the
    opponent's half of the board (ranks 5 to 8 for White, 1 to 4 for
    Black) that the color attacks; it lies between 0 and 32. *)
Theorem space_advantage_counts_far_half (b : Board) (c : Color) :
  get_space_advantage b c
  = size (filter (fun s => in_far_half c s && is_attacked_by b c s) SQUARES)
  /\ 0 <= get_space_advantage b c <= 32.
Proof.
  assert (E : get_space_advantage b c
              = Z.of_nat (List.length (filter (is_attacked_by b c)
                                              (filter (in_far_half c) SQUARES)))).
  { unfold get_space_advantage.
    rewrite (nested_count (is_attacked_by b c)).
    rewrite far_half_squares. apply Z.add_0_l. }
  split.
  - rewrite E. unfold size. f_equal. apply Pieces.filter_twice_length.
  - rewrite E.
    pose proof (filter_length_le (is_attacked_by b c)
                                 (filter (in_far_half c) SQUARES)) as H.
    rewrite far_half_size in H. revert H.
    generalize (List.length (filter (is_attacked_by b c)
                                    (filter (in_far_half c) SQUARES))).
    intros n H. lia.
Qed.

(** ** Pawn structure *)

Lemma py_sum_nonneg (l : list Z) : (forall x, In x l -> 0 <= x) -> 0 <= py_sum l.
Proof.
  induction l as [|x l IH]; intros H; [unfold py_sum; simpl; lia|].
  rewrite py_sum_cons.
  assert (0 <= x) by (apply H; now left).
  assert (0 <= py_sum l) by (apply IH; intros y Hy; apply H; now right).
  lia.
Qed.

Lemma count_cons (x f : Z) (l : list Z) :
  count (x :: l) f = count l f + b2z (x =? f).
Proof.
  unfold count. cbn [count_occ].
  destruct (Z.eq_dec x f) as [E | E].
  - subst. rewrite Z.eqb_refl. cbn [b2z]. lia.
  - apply Z.eqb_neq in E. rewrite E. cbn [b2z]. lia.
Qed.

(** Among distinct files at most one is the file [x]. *)
Lemma one_file_at_most (x : Z) (S : list Z) :
  NoDup S -> py_sum (map (fun f => b2z (x =? f)) S) <= 1.
Proof.
  induction 1 as [|f S Hnotin Hnd IH].
  - unfold py_sum. simpl. lia.
  - cbn [map]. rewrite py_sum_cons.
    destruct (x =? f) eqn:E; cbn [b2z]; [|lia].
    apply Z.eqb_eq in E. subst f.
    assert (Hz : py_sum (map (fun f => b2z (x =? f)) S) = 0).
    { clear IH Hnd. induction S as [|g S IHS]; [reflexivity|].
      cbn [map]. rewrite py_sum_cons.
      assert (x <> g) by (intros ->; apply Hnotin; now left).
      assert (Hg : (x =? g) = false) by now apply Z.eqb_neq.
      rewrite Hg. cbn [b2z]. rewrite IHS; [reflexivity|].
      intros Hin. apply Hnotin. now right. }
    lia.
Qed.

Lemma py_sum_counts_cons (x : Z) (l S : list Z) :
  py_sum (map (count (x :: l)) S)
  = py_sum (map (count l) S) + py_sum (map (fun f => b2z (x =? f)) S).
Proof.
  induction S as [|f S IH]; [reflexivity|].
  cbn [map]. rewrite !py_sum_cons, IH, count_cons. lia.
Qed.

(** The pawns on distinct files are at most all the pawns. *)
Lemma counts_on_distinct_files (l S : list Z) :
  NoDup S -> py_sum (map (count l) S) <= Z.of_nat (List.length l).
Proof.
  intros Hnd. induction l as [|x l IH].
  - assert (H : py_sum (map (count []) S) = 0).
    { clear Hnd. induction S as [|f S IHS]; [reflexivity|].
      cbn [map]. rewrite py_sum_cons, IHS. reflexivity. }
    rewrite H. simpl. lia.
  - rewrite py_sum_counts_cons.
    pose proof (one_file_at_most x S Hnd). cbn [List.length]. lia.
Qed.

Lemma doubled_below_counts (l S : list Z) :
  2 * py_sum (map (fun f => b2z (1 <? count l f)) S) <= py_sum (map (count l) S).
Proof.
  induction S as [|f S IH]; [reflexivity|].
  cbn [map]. rewrite !py_sum_cons.
  assert (0 <= count l f) by (unfold count; lia).
  destruct (1 <? count l f) eqn:E; cbn [b2z].
  - apply Z.ltb_lt in E. lia.
  - lia.
Qed.

Lemma file_on_board (sq : Square) :
  In sq SQUARES -> In (square_file sq) files_of_board.
Proof.
  intros H. apply mem_In.
  assert (C : forallb (fun s => mem (square_file s) files_of_board) SQUARES = true)
    by (vm_compute; reflexivity).
  rewrite forallb_forall in C. now apply C.
Qed.

Lemma distinct_files_at_most_8 (pawns : list Square) :
  (forall sq, In sq pawns -> In sq SQUARES) ->
  (List.length (set_of (map square_file pawns)) <= 8)%nat.
Proof.
  intros H. change 8%nat with (List.length files_of_board).
  apply NoDup_incl_length; [apply NoDup_nodup|].
  intros f Hf. apply nodup_In in Hf. apply in_map_iff in Hf.
  destruct Hf as [sq [<- Hsq]]. apply file_on_board. now apply H.
Qed.

(** X15.  The components of [get_pawn_structure] are bounded by the
    pawns of the color: every doubled file holds two pawns at least, so
    twice [doubled] is at most the number of pawns; [doubled] and
    [isolated] count files, at most 8; [passed] counts pawns. *)
Theorem pawn_structure_ranges (b : Board) (c : Color) :
  2 * doubled (get_pawn_structure b c) <= piece_count b PAWN c
  /\ 0 <= doubled (get_pawn_structure b c) <= 8
  /\ 0 <= isolated (get_pawn_structure b c) <= 8
  /\ 0 <= passed (get_pawn_structure b c) <= piece_count b PAWN c.
Proof.
  unfold get_pawn_structure, piece_count, size. cbn [doubled isolated passed].
  assert (Hsq : forall sq, In sq (pieces b PAWN c) -> In sq SQUARES).
  { intros sq H. apply pieces_In in H. apply In_SQUARES. tauto. }
  revert Hsq. generalize (pieces b PAWN c). intros pawns Hsq.
  pose proof (distinct_files_at_most_8 pawns Hsq) as H8.
  pose proof (doubled_below_counts (map square_file pawns)
                                   (set_of (map square_file pawns))) as Hd.
  pose proof (counts_on_distinct_files (map square_file pawns)
                (set_of (map square_file pawns)) (NoDup_nodup _ _)) as Hc.
  rewrite length_map in Hc.
  rewrite !py_sum_b2z in *.
  pose proof (count_if_bounds (fun f => 1 <? count (map square_file pawns) f)
                              (set_of (map square_file pawns))) as B1.
  pose proof (count_if_bounds
                (fun f => forallb (fun other => 1 <? Z.abs (f - other))
                                  (filter (fun other => negb (other =? f))
                                          (set_of (map square_file pawns))))
                (set_of (map square_file pawns))) as B2.
  pose proof (count_if_bounds (fun sq => negb (blocked_ahead b c sq)) pawns) as B3.
  repeat split; lia.
Qed.

(** ** Development *)

Lemma mem_pieces (b : Board) (pt : PieceType) (c : Color) (s : Square) :
  In s SQUARES -> mem s (pieces b pt c) = is_piece b pt c s.
Proof.
  intros Hs. apply In_SQUARES in Hs.
  destruct (is_piece b pt c s) eqn:E.
  - apply mem_In. apply pieces_In. tauto.
  - destruct (mem s (pieces b pt c)) eqn:M; [|reflexivity].
    apply mem_In in M. apply pieces_In in M. destruct M as [_ M]. congruence.
Qed.

Lemma sq_union_pieces (b : Board) (p1 p2 : PieceType) (c : Color) :
  sq_union (pieces b p1 c) (pieces b p2 c)
  = filter (fun s => is_piece b p1 c s || is_piece b p2 c s) SQUARES.
Proof.
  unfold sq_union. apply filter_ext_in. intros s Hs.
  now rewrite !mem_pieces.
Qed.

Lemma developed_or_home (c : Color) (s : Square) :
  In s SQUARES ->
  ((Bool.eqb c WHITE && (0 <? square_rank s))
   || (Bool.eqb c BLACK && (square_rank s <? 7)))
  = negb (square_rank s =? (if c then 0 else 7)).
Proof.
  intros Hs.
  assert (C : forallb
                (fun s =>
                   forallb
                     (fun c =>
                        Bool.eqb
                          ((Bool.eqb c WHITE && (0 <? square_rank s))
                           || (Bool.eqb c BLACK && (square_rank s <? 7)))
                          (negb (square_rank s =? (if c then 0 else 7))))
                     [true; false])
                SQUARES = true) by (vm_compute; reflexivity).
  rewrite forallb_forall in C. specialize (C s Hs).
  rewrite forallb_forall in C. apply eqb_prop. apply C.
  destruct c; simpl; auto.
Qed.

Lemma split_by_home (N B dev home : Square -> bool) (L : list Square) :
  (forall s, In s L -> dev s = negb (home s)) ->
  (forall s, N s && B s = false) ->
  Z.of_nat (List.length (filter dev (filter (fun s => N s || B s) L)))
  + Z.of_nat (List.length (filter (fun s => (N s || B s) && home s) L))
  = Z.of_nat (List.length (filter N L)) + Z.of_nat (List.length (filter B L)).
Proof.
  intros Hdev Hdis. induction L as [|x L IH]; [reflexivity|].
  assert (IH' := IH (fun s Hs => Hdev s (or_intror Hs))).
  specialize (Hdev x (or_introl eq_refl)). specialize (Hdis x).
  cbn [filter].
  destruct (N x), (B x); cbn [orb andb] in *; try discriminate;
    cbn [filter]; rewrite ?Hdev; destruct (home x); cbn [negb List.length]; lia.
Qed.

(** X16.  Every knight and bishop of the color is either counted by
    [get_development] or stands on the color's own back rank: development
    plus the minor pieces at home is the number of knights and bishops. *)
Theorem development_and_home_minors (b : Board) (c : Color) :
  get_development b c + minors_at_home b c
  = piece_count b KNIGHT c + piece_count b BISHOP c.
Proof.
  unfold get_development, minors_at_home, piece_count, size.
  rewrite count_if_filter, sq_union_pieces. unfold pieces.
  apply (split_by_home (is_piece b KNIGHT c) (is_piece b BISHOP c)).
  - intros s Hs. now apply developed_or_home.
  - intros s. unfold is_piece. destruct (piece_at b s) as [p|]; [|reflexivity].
    destruct (piece_type p); cbn [PieceType_eqb andb]; try reflexivity.
    now destruct (Bool.eqb (color p) c).
Qed.

(** X17.  A side that [get_king_safety] calls "Safe" holds no castling
    right: the bundle never pairs [king_safety = "Safe"] with
    [castling_status = True]. *)
Theorem safe_king_has_no_castling_rights (b : Board) (c : Color) :
  get_king_safety b c = Some "Safe"%string ->
  get_castling_status b c = false.
Proof.
  unfold get_king_safety, get_castling_status.
  destruct (king b c) as [k|]; [|discriminate].
  destruct (has_castling_rights b c); [|reflexivity].
  cbn [negb]. rewrite andb_false_r. discriminate.
Qed.

Lemma safe_king_has_no_castling_rights_witness :
  get_king_safety castled_kings WHITE = Some "Safe"%string
  /\ get_castling_status castled_kings WHITE = false.
Proof.
  split; [vm_compute; reflexivity|].
  apply (safe_king_has_no_castling_rights castled_kings WHITE).
  vm_compute. reflexivity.
Defined.

(** ** Passed pawns and their advancement *)

Lemma rank_on_board (sq : Square) : In sq SQUARES -> 0 <= square_rank sq <= 7.
Proof.
  intros H.
  assert (C : forallb (fun s => (0 <=? square_rank s) && (square_rank s <=? 7))
                      SQUARES = true) by (vm_compute; reflexivity).
  rewrite forallb_forall in C. specialize (C sq H).
  apply andb_prop in C. destruct C as [C1 C2].
  apply Z.leb_le in C1. apply Z.leb_le in C2. lia.
Qed.

Lemma rank_sum_range (l : list Square) :
  (forall sq, In sq l -> In sq SQUARES) ->
  0 <= py_sum (map square_rank l) <= 7 * Z.of_nat (List.length l).
Proof.
  induction l as [|x l IH]; intros H.
  - unfold py_sum. simpl. lia.
  - cbn [map List.length]. rewrite py_sum_cons.
    pose proof (rank_on_board x (H x (or_introl eq_refl))).
    assert (0 <= py_sum (map square_rank l) <= 7 * Z.of_nat (List.length l))
      by (apply IH; intros sq Hsq; apply H; now right).
    lia.
Qed.

(** X22.  [get_passed_pawn_advancement] adds a rank index from 0 to 7 for
    each pawn that [get_pawn_structure] counts as passed: it lies between
    0 and seven times the [passed] component, and is 0 when no pawn is
    passed. *)
Theorem advancement_bounded_by_passed (b : Board) (c : Color) :
  0 <= get_passed_pawn_advancement b c
       <= 7 * passed (get_pawn_structure b c).
Proof.
  rewrite Pawns.advancement_sums_rank_index, Pawns.passed_counts_clear_above.
  unfold size. apply rank_sum_range.
  intros sq H. apply filter_In in H. destruct H as [H _].
  apply pieces_In in H. apply In_SQUARES. tauto.
Qed.

(** The nested loop of [get_outposts] never decreases its counter. *)
Lemma nested_loop_nonneg {A B} (g : A -> list B) (P : B -> bool) (l : list A) (n : Z) :
  n <= fold_left
         (fun outposts x =>
            fold_left (fun outposts y => if P y then outposts + 1 else outposts)
                      (g x) outposts)
         l n.
Proof.
  revert n. induction l as [|x l IH]; intros n; [cbn; lia|].
  cbn [fold_left]. etransitivity; [|apply IH].
  rewrite (count_if_from P (g x) n). lia.
Qed.

(** X23.  No counter of the feature bank is negative, and the two flags
    [get_bishop_pair_bonus] and [get_connected_rooks] are 0 or 1. *)
Theorem counters_are_nonnegative (b : Board) (c : Color) :
  0 <= fst (get_material b) /\ 0 <= snd (get_material b)
  /\ 0 <= get_mobility b
  /\ 0 <= get_development b c
  /\ 0 <= get_rook_activity b c
  /\ 0 <= get_piece_activity b c
  /\ 0 <= get_outposts b c
  /\ 0 <= get_pinned_pieces b c
  /\ 0 <= attacked (get_attacked_vs_defended_balance b c)
  /\ 0 <= defended (get_attacked_vs_defended_balance b c)
  /\ 0 <= get_rook_on_7th_rank b c
  /\ 0 <= get_backward_pawns b c
  /\ 0 <= get_isolated_weakness_clusters b c
  /\ (get_bishop_pair_bonus b c = 0 \/ get_bishop_pair_bonus b c = 1)
  /\ (get_connected_rooks b c = 0 \/ get_connected_rooks b c = 1).
Proof.
  assert (Hm : 0 <= fst (get_material b) /\ 0 <= snd (get_material b)).
  { unfold get_material. rewrite material_loop. cbn [fst snd]. split; lia. }
  destruct Hm as [Hm1 Hm2].
  destruct (Pieces.balance_occupied b c) as [Ha Hd].
  repeat split; try assumption.
  - unfold get_mobility. lia.
  - apply (proj1 (count_if_bounds _ _)).
  - apply (proj1 (count_if_bounds _ _)).
  - apply (proj1 (count_if_bounds _ _)).
  - apply (nested_loop_nonneg BB_KNIGHT_ATTACKS
             (fun sq => negb (is_attacked_by b (negb c) sq))).
  - apply (proj1 (count_if_bounds _ _)).
  - rewrite Ha. unfold size. lia.
  - rewrite Hd. unfold size. lia.
  - apply (proj1 (count_if_bounds _ _)).
  - apply (proj1 (count_if_bounds _ _)).
  - apply (proj1 (count_if_bounds _ _)).
  - unfold get_bishop_pair_bonus.
    destruct (2 <=? List.length (pieces b BISHOP c))%nat; auto.
  - unfold get_connected_rooks.
    destruct (pieces b ROOK c) as [|r0 [|r1 [|r2 l]]]; auto.
    destruct (is_attacked_by b c r0 && is_attacked_by b c r1); auto.
Qed.

End FeatureLaws.

(* ===================================================================== *)
(** * The feature vector: the board tensor and the move pattern *)
(* ===================================================================== *)

Module VectorProofs.
Import Chess Positions Counting FeatureVectors VectorLaws.

Lemma array_set_length {A} (l : list A) (i : nat) (x : A) :
  List.length (array_set l i x) = List.length l.
Proof.
  revert i. induction l as [|y r IH]; intros [|j]; cbn; auto.
Qed.

Lemma nth_array_set {A} (l : list A) (i j : nat) (x d : A) :
  nth j (array_set l i x) d
  = if ((j =? i) && (i <? List.length l))%nat then x else nth j l d.
Proof.
  revert i j. induction l as [|y r IH]; intros i j.
  - cbn. destruct j, i; cbn; try reflexivity; now rewrite andb_false_r.
  - destruct i as [|i], j as [|j]; cbn [array_set nth List.length]; try reflexivity.
    rewrite IH. reflexivity.
Qed.

Lemma array_set_middle {A} (pre post : list A) (y x : A) :
  array_set (pre ++ y :: post) (List.length pre) x = pre ++ x :: post.
Proof.
  induction pre as [|z pre IH]; cbn; [reflexivity | now rewrite IH].
Qed.

(** ** The board tensor *)

Lemma tensor_loop (l : list (Square * Piece)) (acc : list Z) (i : nat) :
  nth i
      (fold_left
         (fun tensor (sp : Square * Piece) =>
            let (sq, piece) := sp in
            let row := sq / 8 in
            let col := sq mod 8 in
            let offset := if Bool.eqb (color piece) WHITE then 0 else 6 in
            array_set tensor
                      (Z.to_nat (row * 96 + col * 12
                                 + (piece_to_idx (piece_type piece) + offset)))
                      1)
         l acc) 0
  = if existsb (fun sp => ((i =? tensor_index sp)
                           && (tensor_index sp <? List.length acc))%nat) l
    then 1 else nth i acc 0.
Proof.
  revert acc. induction l as [|[sq piece] l IH]; intros acc; [reflexivity|].
  cbn [fold_left existsb]. rewrite IH, array_set_length, nth_array_set.
  unfold tensor_index at 3 4. unfold channel. cbn [fst snd].
  destruct (existsb _ l); [now rewrite orb_true_r|].
  rewrite orb_false_r. reflexivity.
Qed.

Lemma tensor_loop_length (l : list (Square * Piece)) (acc : list Z) :
  List.length
    (fold_left
       (fun tensor (sp : Square * Piece) =>
          let (sq, piece) := sp in
          let row := sq / 8 in
          let col := sq mod 8 in
          let offset := if Bool.eqb (color piece) WHITE then 0 else 6 in
          array_set tensor
                    (Z.to_nat (row * 96 + col * 12
                               + (piece_to_idx (piece_type piece) + offset)))
                    1)
       l acc)
  = List.length acc.
Proof.
  revert acc. induction l as [|[sq piece] l IH]; intros acc; [reflexivity|].
  cbn [fold_left]. now rewrite IH, array_set_length.
Qed.

Lemma piece_map_In (b : Board) (sq : Square) (p : Piece) :
  In (sq, p) (piece_map b) <-> 0 <= sq < 64 /\ piece_at b sq = Some p.
Proof.
  unfold piece_map. rewrite in_flat_map. split.
  - intros [s [Hs Hin]]. apply in_rev in Hs. apply In_SQUARES in Hs.
    destruct (piece_at b s) as [q|] eqn:E; [|contradiction].
    destruct Hin as [Heq | []]. injection Heq as -> ->. auto.
  - intros [Hs Hp]. exists sq. split.
    + apply in_rev. rewrite rev_involutive. now apply In_SQUARES.
    + rewrite Hp. now left.
Qed.

Lemma channel_range (p : Piece) : 0 <= channel p < 12.
Proof. destruct p as [[] []]; vm_compute; split; congruence. Qed.

Lemma channel_injective (p q : Piece) : channel p = channel q -> p = q.
Proof. destruct p as [[] []], q as [[] []]; vm_compute; congruence. Qed.

(** The entry of the flattened tensor for row, column and channel. *)
Lemma tensor_entry (b : Board) (row col ch : Z) :
  0 <= row < 8 -> 0 <= col < 8 -> 0 <= ch < 12 ->
  nth (Z.to_nat (row * 96 + col * 12 + ch)) (board_pattern_features b) 0
  = match piece_at b (square col row) with
    | Some p => if channel p =? ch then 1 else 0
    | None => 0
    end.
Proof.
  intros Hrow Hcol Hch. unfold board_pattern_features.
  generalize (piece_map_In b). generalize (piece_map b). intros l Hl.
  rewrite tensor_loop. rewrite nth_repeat, repeat_length.
  assert (Hidx : forall sq p,
             0 <= sq < 64 ->
             ((Z.to_nat (row * 96 + col * 12 + ch) =? tensor_index (sq, p))
              && (tensor_index (sq, p) <? 768))%nat = true
             <-> sq = square col row /\ channel p = ch).
  { intros sq p Hsq. pose proof (channel_range p) as Hc.
    unfold tensor_index, square. cbn [fst snd].
    pose proof (Z.div_mod sq 8 ltac:(lia)) as Hdm.
    pose proof (Z.mod_pos_bound sq 8 ltac:(lia)) as Hm.
    assert (0 <= sq / 8 < 8) by (split; [apply Z.div_pos | apply Z.div_lt_upper_bound]; lia).
    rewrite andb_true_iff, Nat.eqb_eq, Nat.ltb_lt. split.
    - intros [E _]. apply Z2Nat.inj in E; lia.
    - intros [-> <-].
      assert ((row * 8 + col) / 8 = row) by (symmetry; apply (Z.div_unique _ 8 row col); lia).
      assert ((row * 8 + col) mod 8 = col) by (symmetry; apply (Z.mod_unique _ 8 row col); lia).
      split; [f_equal; lia | lia]. }
  assert (Hsq0 : 0 <= square col row < 64) by (unfold square; lia).
  destruct (existsb _ l) eqn:E.
  - apply existsb_exists in E. destruct E as [[sq p] [Hin E]].
    apply Hl in Hin. destruct Hin as [Hsq Hp].
    apply (Hidx sq p Hsq) in E. destruct E as [-> <-].
    rewrite Hp. now rewrite Z.eqb_refl.
  - destruct (piece_at b (square col row)) as [p|] eqn:Hp; [|reflexivity].
    destruct (channel p =? ch) eqn:C; [|reflexivity].
    apply Z.eqb_eq in C. exfalso.
    assert (T : existsb (fun sp => ((Z.to_nat (row * 96 + col * 12 + ch)
                                     =? tensor_index sp)
                                    && (tensor_index sp <? 768))%nat) l = true).
    { apply existsb_exists. exists (square col row, p). split.
      - apply Hl. auto.
      - apply (Hidx _ p Hsq0). auto. }
    congruence.
Qed.

(** X18.  [board_pattern_features] returns 768 numbers; the one for
    row, column and channel is 1 when the square of that row (rank) and
    column (file) holds the piece of that channel, and 0 otherwise. *)
Theorem board_tensor_is_one_hot (b : Board) (row col ch : Z) :
  0 <= row < 8 -> 0 <= col < 8 -> 0 <= ch < 12 ->
  List.length (board_pattern_features b) = 768%nat
  /\ nth (Z.to_nat (row * 96 + col * 12 + ch)) (board_pattern_features b) 0
     = match piece_at b (square col row) with
       | Some p => if channel p =? ch then 1 else 0
       | None => 0
       end.
Proof.
  intros Hrow Hcol Hch. split.
  - unfold board_pattern_features. now rewrite tensor_loop_length, repeat_length.
  - now apply tensor_entry.
Qed.

Lemma board_tensor_is_one_hot_witness :
  0 <= 1 < 8 /\ 0 <= 4 < 8 /\ 0 <= 0 < 12
  /\ List.length (board_pattern_features start) = 768%nat
  /\ nth (Z.to_nat (1 * 96 + 4 * 12 + 0)) (board_pattern_features start) 0
     = match piece_at start (square 4 1) with
       | Some p => if channel p =? 0 then 1 else 0
       | None => 0
       end.
Proof.
  split; [lia|]. split; [lia|]. split; [lia|].
  apply (board_tensor_is_one_hot start 1 4 0); lia.
Defined.

(** X19.  The board tensor determines the placement: two boards with the
    same [board_pattern_features] hold the same piece on every square. *)
Theorem board_tensor_determines_placement (b1 b2 : Board) (sq : Square) :
  board_pattern_features b1 = board_pattern_features b2 ->
  piece_at b1 sq = piece_at b2 sq.
Proof.
  intros E.
  destruct (on_board sq) eqn:Hon;
    [|unfold piece_at; now rewrite Hon].
  unfold on_board in Hon. apply andb_prop in Hon. destruct Hon as [H0 H64].
  apply Z.leb_le in H0. apply Z.ltb_lt in H64.
  pose proof (Z.div_mod sq 8 ltac:(lia)) as Hdm.
  pose proof (Z.mod_pos_bound sq 8 ltac:(lia)) as Hm.
  assert (Hr : 0 <= sq / 8 < 8)
    by (split; [apply Z.div_pos | apply Z.div_lt_upper_bound]; lia).
  assert (Hs : square (sq mod 8) (sq / 8) = sq) by (unfold square; lia).
  assert (T : forall ch, 0 <= ch < 12 ->
                match piece_at b1 sq with
                | Some p => if channel p =? ch then 1 else 0
                | None => 0
                end
                = match piece_at b2 sq with
                  | Some p => if channel p =? ch then 1 else 0
                  | None => 0
                  end).
  { intros ch Hch.
    rewrite <- Hs at 1 2.
    rewrite <- (tensor_entry b1 (sq / 8) (sq mod 8) ch Hr Hm Hch).
    rewrite <- (tensor_entry b2 (sq / 8) (sq mod 8) ch Hr Hm Hch).
    now rewrite E. }
  destruct (piece_at b1 sq) as [p1|], (piece_at b2 sq) as [p2|]; try reflexivity.
  - specialize (T (channel p1) (channel_range p1)).
    rewrite Z.eqb_refl in T.
    destruct (channel p2 =? channel p1) eqn:C; [|discriminate].
    apply Z.eqb_eq in C. f_equal. symmetry. now apply channel_injective.
  - specialize (T (channel p1) (channel_range p1)).
    rewrite Z.eqb_refl in T. discriminate.
  - specialize (T (channel p2) (channel_range p2)).
    rewrite Z.eqb_refl in T. discriminate.
Qed.

Lemma board_tensor_determines_placement_witness :
  board_pattern_features start = board_pattern_features start_black_to_move
  /\ piece_at start 12 = piece_at start_black_to_move 12.
Proof.
  split; [vm_compute; reflexivity|].
  apply (board_tensor_determines_placement start start_black_to_move 12).
  vm_compute. reflexivity.
Defined.

(** ** The move pattern *)

Lemma array_store_middle {A} (pre post : list A) (y x : A) :
  array_store (pre ++ y :: post) (List.length pre) x = Some (pre ++ x :: post).
Proof.
  unfold array_store.
  assert (H : (List.length pre <? List.length (pre ++ y :: post))%nat = true).
  { apply Nat.ltb_lt. rewrite length_app. cbn. lia. }
  rewrite H, array_set_middle. reflexivity.
Qed.

(** Once an assignment has raised, nothing more is stored. *)
Lemma move_loop_raised (hash : string -> Z) (l : list (nat * Move)) :
  fold_left
    (fun features (im : nat * Move) =>
       let (i, move) := im in
       match features with
       | Some a => array_store a i (Qred ((hash (uci move) mod 1000) # 1000))
       | None => None
       end)
    l None
  = None.
Proof. induction l as [|[i m] l IH]; [reflexivity | exact IH]. Qed.

Lemma move_loop (hash : string -> Z) (l : list Move) (pre : list Q) (k : nat) :
  fold_left
    (fun features (im : nat * Move) =>
       let (i, move) := im in
       match features with
       | Some a => array_store a i (Qred ((hash (uci move) mod 1000) # 1000))
       | None => None
       end)
    (enumerate (List.length pre) l)
    (Some (pre ++ repeat (0 # 1)%Q (List.length l + k)))
  = Some (pre ++ map (encode_move hash) l ++ repeat (0 # 1)%Q k).
Proof.
  revert pre. induction l as [|m l IH]; intros pre; [reflexivity|].
  cbn [enumerate fold_left List.length Nat.add repeat map app].
  rewrite array_store_middle.
  replace (pre ++ Qred ((hash (uci m) mod 1000) # 1000)
               :: repeat (0 # 1)%Q (List.length l + k))
    with ((pre ++ [encode_move hash m]) ++ repeat (0 # 1)%Q (List.length l + k))
    by (rewrite <- app_assoc; reflexivity).
  replace (S (List.length pre)) with (List.length (pre ++ [encode_move hash m]))
    by (rewrite length_app; cbn; lia).
  rewrite IH, <- app_assoc. reflexivity.
Qed.

Lemma last_n_length {A} (n : nat) (l : list A) :
  (0 < n)%nat -> (List.length (last_n n l) <= n)%nat.
Proof.
  intros H. destruct n as [|n]; [lia|].
  unfold last_n. rewrite length_skipn. lia.
Qed.

Lemma last_n_app {A} (n : nat) (earlier l : list A) :
  (0 < n <= List.length l)%nat -> last_n n (earlier ++ l) = last_n n l.
Proof.
  intros H. destruct n as [|n]; [lia|]. unfold last_n. rewrite length_app.
  replace (List.length earlier + List.length l - S n)%nat
    with (List.length earlier + (List.length l - S n))%nat by lia.
  rewrite skipn_app.
  replace (List.length earlier + (List.length l - S n)
           - List.length earlier)%nat
    with (List.length l - S n)%nat by lia.
  rewrite skipn_all2 by lia. reflexivity.
Qed.

(** The array that is returned when no assignment falls past its end. *)
Lemma move_features_content (hash : string -> Z) (move_list : list Move)
      (max_len : Z) :
  0 <= max_len ->
  (List.length (last_n (Z.to_nat max_len) move_list) <= Z.to_nat max_len)%nat ->
  move_sequence_features hash move_list max_len
  = Some (map (encode_move hash) (last_n (Z.to_nat max_len) move_list)
          ++ repeat (0 # 1)%Q
               (Z.to_nat max_len
                - List.length (last_n (Z.to_nat max_len) move_list))).
Proof.
  intros H0 H. unfold move_sequence_features.
  assert (E : (max_len <? 0) = false) by (apply Z.ltb_ge; lia).
  rewrite E. generalize dependent (Z.to_nat max_len). intros n H.
  replace n with (List.length (last_n n move_list)
                  + (n - List.length (last_n n move_list)))%nat at 2 by lia.
  apply (move_loop hash (last_n n move_list) []).
Qed.

(** The two ways of raising: a negative length, and length 0 with a move
    to store. *)
Lemma move_features_raise (hash : string -> Z) (move_list : list Move)
      (max_len : Z) :
  max_len < 0 \/ (max_len = 0 /\ move_list <> []) ->
  move_sequence_features hash move_list max_len = None.
Proof.
  unfold move_sequence_features. intros [H | [-> H]].
  - assert (E : (max_len <? 0) = true) by (apply Z.ltb_lt; lia).
    now rewrite E.
  - destruct move_list as [|m l]; [now contradiction H|].
    cbn. apply move_loop_raised.
Qed.

Lemma move_features_return (hash : string -> Z) (move_list : list Move)
      (max_len : Z) :
  0 < max_len \/ (max_len = 0 /\ move_list = []) ->
  move_sequence_features hash move_list max_len
  = Some (map (encode_move hash) (last_n (Z.to_nat max_len) move_list)
          ++ repeat (0 # 1)%Q
               (Z.to_nat max_len
                - List.length (last_n (Z.to_nat max_len) move_list))).
Proof.
  intros [H | [-> ->]].
  - apply move_features_content; [lia|]. apply last_n_length. lia.
  - reflexivity.
Qed.

(** X20.  [move_sequence_features] raises exactly on a negative [max_len]
    ([np.zeros]) and on [max_len = 0] with a non-empty list (the slice
    [move_list[-0:]] is the whole list, and the first assignment falls past
    the end of the empty array).  Otherwise it returns [max_len] numbers:
    the codes of the last [max_len] moves of the list, oldest first,
    followed by zeros when the list is shorter; moves before the last
    [max_len] do not count. *)
Theorem move_features_are_last_moves
        (hash : string -> Z) (move_list : list Move) (max_len : Z) :
  (move_sequence_features hash move_list max_len = None
   <-> max_len < 0 \/ (max_len = 0 /\ move_list <> []))
  /\ (0 < max_len \/ (max_len = 0 /\ move_list = []) ->
      move_sequence_features hash move_list max_len
      = Some (map (encode_move hash) (last_n (Z.to_nat max_len) move_list)
              ++ repeat (0 # 1)%Q
                   (Z.to_nat max_len
                    - List.length (last_n (Z.to_nat max_len) move_list))))
  /\ (forall features,
         move_sequence_features hash move_list max_len = Some features ->
         List.length features = Z.to_nat max_len)
  /\ (forall earlier,
         0 < max_len <= Z.of_nat (List.length move_list) ->
         move_sequence_features hash (earlier ++ move_list) max_len
         = move_sequence_features hash move_list max_len).
Proof.
  assert (Hcases : (max_len < 0 \/ (max_len = 0 /\ move_list <> []))
                   \/ (0 < max_len \/ (max_len = 0 /\ move_list = []))).
  { destruct move_list as [|m l].
    - destruct (Z_lt_le_dec max_len 0) as [H | H]; [left; left; exact H|].
      right. destruct (Z.eq_dec max_len 0) as [-> | Hn]; [right; auto | left; lia].
    - destruct (Z_lt_le_dec max_len 0) as [H | H]; [left; left; exact H|].
      destruct (Z.eq_dec max_len 0) as [-> | Hn].
      + left. right. split; [reflexivity | discriminate].
      + right. left. lia. }
  split; [|split; [|split]].
  - split; [|apply move_features_raise].
    intros H. destruct Hcases as [Hc | Hc]; [exact Hc|].
    rewrite (move_features_return hash move_list max_len Hc) in H. discriminate.
  - apply move_features_return.
  - intros features H. destruct Hcases as [Hc | Hc].
    + rewrite (move_features_raise hash move_list max_len Hc) in H. discriminate.
    + rewrite (move_features_return hash move_list max_len Hc) in H.
      injection H as <-. rewrite length_app, length_map, repeat_length.
      destruct Hc as [Hc | [-> ->]]; [|reflexivity].
      pose proof (last_n_length (Z.to_nat max_len) move_list ltac:(lia)). lia.
  - intros earlier H.
    rewrite !move_features_return by (left; lia).
    rewrite last_n_app; [reflexivity | lia].
Qed.

Lemma move_features_are_last_moves_witness :
  move_sequence_features length_hash twelve_moves 10
  = Some (map (encode_move length_hash) (skipn 2 twelve_moves))
  /\ move_sequence_features length_hash twelve_moves 0 = None
  /\ move_sequence_features length_hash [] 0 = Some [].
Proof.
  pose proof (move_features_are_last_moves length_hash twelve_moves 10)
    as [_ [H10 _]].
  pose proof (move_features_are_last_moves length_hash twelve_moves 0)
    as [[_ H0] _].
  pose proof (move_features_are_last_moves length_hash [] 0) as [_ [He _]].
  split; [|split].
  - rewrite H10 by (left; lia). vm_compute. reflexivity.
  - apply H0. right. split; [reflexivity | discriminate].
  - rewrite He by (right; split; reflexivity). reflexivity.
Defined.

Example twelve_moves_keep_ten :
  move_sequence_features length_hash twelve_moves 10
  = Some (map (encode_move length_hash) (skipn 2 twelve_moves)).
Proof. vm_compute. reflexivity. Qed.

(** With [max_len = 0] the slice is the whole list and the first
    assignment raises; a negative [max_len] raises in [np.zeros]. *)
Example move_features_raising :
  move_sequence_features length_hash [mkMove 12 28 None] 0 = None
  /\ move_sequence_features length_hash [] (-1) = None
  /\ move_sequence_features length_hash [] 0 = Some []
  /\ last_n 0 twelve_moves = twelve_moves.
Proof. vm_compute. auto. Qed.

Lemma encode_move_range (hash : string -> Z) (m : Move) :
  (0 <= encode_move hash m)%Q /\ (encode_move hash m < 1)%Q.
Proof.
  unfold encode_move.
  pose proof (Z.mod_pos_bound (hash (uci m)) 1000 ltac:(lia)) as H.
  rewrite Qred_correct. unfold Qle, Qlt. cbn [Qnum Qden]. lia.
Qed.

(** X21.  Every number that [move_sequence_features] returns is at least 0
    and below 1, whatever the sign of the string hash ([%] with a positive
    modulus is never negative). *)
Theorem move_features_in_unit_interval
        (hash : string -> Z) (move_list : list Move) (max_len : Z)
        (features : list Q) :
  move_sequence_features hash move_list max_len = Some features ->
  Forall (fun q => (0 <= q)%Q /\ (q < 1)%Q) features.
Proof.
  intros H.
  assert (Hc : 0 < max_len \/ (max_len = 0 /\ move_list = [])).
  { destruct (Z_lt_le_dec 0 max_len) as [Hp | Hp]; [left; exact Hp|].
    right. destruct (Z.eq_dec max_len 0) as [-> | Hn].
    - split; [reflexivity|]. destruct move_list as [|m l]; [reflexivity|].
      rewrite (move_features_raise hash (m :: l) 0) in H; [discriminate|].
      right. split; [reflexivity | discriminate].
    - rewrite (move_features_raise hash move_list max_len) in H;
        [discriminate | left; lia]. }
  rewrite (move_features_return hash move_list max_len Hc) in H.
  injection H as <-. apply Forall_app. split.
  - apply Forall_forall. intros q Hq. apply in_map_iff in Hq.
    destruct Hq as [m [<- _]]. apply encode_move_range.
  - apply Forall_forall. intros q Hq. apply repeat_spec in Hq. subst q.
    split; [apply Qle_refl | reflexivity].
Qed.

Lemma move_features_in_unit_interval_witness :
  exists features,
    move_sequence_features negative_hash twelve_moves 10 = Some features
    /\ List.length features = 10%nat
    /\ Forall (fun q => (0 <= q)%Q /\ (q < 1)%Q) features.
Proof.
  eexists. split; [vm_compute; reflexivity|]. split; [reflexivity|].
  apply (move_features_in_unit_interval negative_hash twelve_moves 10).
  vm_compute. reflexivity.
Defined.

Example negative_hash_code :
  encode_move negative_hash (mkMove 12 28 None) = (989 # 1000)%Q.
Proof. vm_compute. reflexivity. Qed.

End VectorProofs.

(* ===================================================================== *)
(** * Determinism of the extraction *)
(* ===================================================================== *)

Module Determinism.
Import Chess Positions FeatureVectors VectorLaws VectorProofs.

Example uci_names :
  uci (mkMove 12 28 None) = "e2e4"%string
  /\ uci (mkMove 52 60 (Some QUEEN)) = "e7e8q"%string.
Proof. vm_compute. auto. Qed.

Example white_pawn_e2_channel :
  nth (1 * 96 + 4 * 12 + 0) (board_pattern_features start) 0 = 1
  /\ nth (7 * 96 + 4 * 12 + 11) (board_pattern_features start) 0 = 1
  /\ List.length (board_pattern_features start) = 768%nat
  /\ fold_left Z.add (board_pattern_features start) 0 = 32.
Proof. vm_compute. auto. Qed.

Example last_move_features :
  move_sequence_features length_hash [mkMove 12 28 None] 10
  = Some [1 # 250; 0 # 1; 0 # 1; 0 # 1; 0 # 1; 0 # 1; 0 # 1; 0 # 1; 0 # 1; 0 # 1]%Q.
Proof. vm_compute. reflexivity. Qed.

(** C5, as the claim states it, fails: two successive invocations on the
    same board-state string and the same (empty) move list return
    different bundles, the second one made of the next three draws. *)
Lemma successive_extractions_differ :
  fst first_run <> fst second_run
  /\ option_map riskTakingScore (fst first_run) = Some (0 # 8)%Q
  /\ option_map riskTakingScore (fst second_run) = Some (3 # 8)%Q.
Proof.
  split; [|split; vm_compute; reflexivity].
  intros H. apply (f_equal (option_map riskTakingScore)) in H.
  vm_compute in H. discriminate.
Qed.

(** The code of a move depends on the string hash through its residue
    modulo 1000 only. *)
Lemma encode_move_residue (hash hash' : string -> Z) (m : Move) :
  encode_move hash m = encode_move hash' m
  <-> hash (uci m) mod 1000 = hash' (uci m) mod 1000.
Proof.
  unfold encode_move. split; [|now intros ->].
  intros H.
  assert (E : ((hash (uci m) mod 1000) # 1000 == (hash' (uci m) mod 1000) # 1000)%Q).
  { rewrite <- (Qred_correct ((hash (uci m) mod 1000) # 1000)), H.
    apply Qred_correct. }
  unfold Qeq in E. cbn [Qnum Qden] in E. lia.
Qed.

(** The move features of two processes on one move list are equal exactly
    when the two string hashes agree modulo 1000 on the last ten moves. *)
Lemma move_features_of_two_processes
      (hash hash' : string -> Z) (move_list : list Move) (a a' : list Q) :
  move_sequence_features hash move_list 10 = Some a ->
  move_sequence_features hash' move_list 10 = Some a' ->
  a = a'
  <-> forall m, In m (last_n 10 move_list) ->
                hash (uci m) mod 1000 = hash' (uci m) mod 1000.
Proof.
  rewrite !move_features_return by (left; lia).
  intros H H'. injection H as <-. injection H' as <-. split.
  - intros E m Hm. apply app_inv_tail in E.
    apply encode_move_residue. revert m Hm. now apply map_ext_in_iff.
  - intros E. f_equal. apply map_ext_in. intros m Hm.
    apply encode_move_residue. now apply E.
Qed.

(** C5, amended.  The heuristic extraction returns the same bundle from
    every generator state and leaves the state as it is.  The
    feature-vector extraction, without an engine, is run in two processes,
    each with its own string hash and generator state, on the same input.
    Board pattern, style label and engine score of the two bundles are
    equal.  The move features are equal exactly when the two string hashes
    agree modulo 1000 on the UCI strings of the last ten moves, as they do
    within one process.  The three scores are the three numbers the
    generator returns next.  The two bundles are equal exactly when the
    three draws and the move features are. *)
Theorem extraction_deterministic_up_to_draws
  (hash hash' : string -> Z) (fen : string) (move_list : list Move)
  (st st' : RandomState) (v v' : FeatureVector) :
  fst (extract_features hash None fen move_list st) = Some v ->
  fst (extract_features hash' None fen move_list st') = Some v' ->
  (forall prev,
      fst (heuristic_extraction fen prev st) = fst (heuristic_extraction fen prev st')
      /\ snd (heuristic_extraction fen prev st) = st)
  /\ boardPatternFeatures v = boardPatternFeatures v'
  /\ styleCluster v = styleCluster v'
  /\ stockfishEval v = stockfishEval v'
  /\ (moveSequenceFeatures v = moveSequenceFeatures v'
      <-> forall m, In m (last_n 10 move_list) ->
                    hash (uci m) mod 1000 = hash' (uci m) mod 1000)
  /\ riskTakingScore v = st 0%nat
  /\ tacticalAwarenessScore v = st 1%nat
  /\ endgameSkillScore v = st 2%nat
  /\ (v = v'
      <-> st 0%nat = st' 0%nat /\ st 1%nat = st' 1%nat /\ st 2%nat = st' 2%nat
          /\ moveSequenceFeatures v = moveSequenceFeatures v').
Proof.
  unfold extract_features. destruct (decode fen) as [board|]; [|discriminate].
  destruct (move_sequence_features hash move_list 10) as [a|] eqn:Ha;
    [|discriminate].
  destruct (move_sequence_features hash' move_list 10) as [a'|] eqn:Ha';
    [|discriminate].
  cbn. intros H H'. injection H as <-. injection H' as <-. cbn.
  split; [intros prev; split; reflexivity|].
  do 3 (split; [reflexivity|]).
  split; [exact (move_features_of_two_processes hash hash' move_list a a' Ha Ha')|].
  do 3 (split; [reflexivity|]).
  split.
  - intros E. injection E as -> -> -> ->. repeat split; reflexivity.
  - intros [-> [-> [-> ->]]]. reflexivity.
Qed.

Lemma extraction_deterministic_up_to_draws_witness :
  exists v v',
    fst (extract_features length_hash None start_fen twelve_moves constant_state)
    = Some v
    /\ fst (extract_features shifted_hash None start_fen twelve_moves counting_state)
       = Some v'
    /\ boardPatternFeatures v = boardPatternFeatures v'
    /\ styleCluster v = styleCluster v'
    /\ stockfishEval v = stockfishEval v'
    /\ moveSequenceFeatures v = moveSequenceFeatures v'
    /\ riskTakingScore v = constant_state 0%nat
    /\ tacticalAwarenessScore v = constant_state 1%nat
    /\ endgameSkillScore v = constant_state 2%nat
    /\ v <> v'.
Proof.
  eexists. eexists.
  split; [vm_compute; reflexivity|].
  split; [vm_compute; reflexivity|].
  pose proof (extraction_deterministic_up_to_draws length_hash shifted_hash
                start_fen twelve_moves constant_state counting_state _ _
                eq_refl eq_refl) as H.
  destruct H as [_ [Hb [Hs [He [Hm [Hr [Ht [Hg Hv]]]]]]]].
  repeat (split; [assumption|]).
  split.
  - apply Hm. intros m Hm'. vm_compute in Hm'.
    repeat (destruct Hm' as [<- | Hm']; [vm_compute; reflexivity|]).
    contradiction.
  - repeat (split; [assumption|]).
    intros E. apply Hv in E. destruct E as [E _]. vm_compute in E. discriminate.
Defined.

(** Two processes whose string hashes differ modulo 1000 on a move of the
    list return different move features from the same input, whatever the
    draws. *)
Example move_features_depend_on_process :
  move_sequence_features length_hash [mkMove 12 28 None] 10
  <> move_sequence_features negative_hash [mkMove 12 28 None] 10
  /\ fst (extract_features length_hash None start_fen [mkMove 12 28 None]
            constant_state)
     <> fst (extract_features negative_hash None start_fen [mkMove 12 28 None]
               constant_state).
Proof.
  split; intros H.
  - vm_compute in H. discriminate.
  - apply (f_equal (option_map moveSequenceFeatures)) in H.
    vm_compute in H. discriminate.
Qed.

(** The state advances by three draws per invocation, and not at all when
    the string does not decode. *)
Lemma extraction_consumes_three_draws
  (hash : string -> Z) (fen : string) (move_list : list Move)
  (st : RandomState) (board : Board) :
  decode fen = Some board ->
  forall n, snd (extract_features hash None fen move_list st) n = st (3 + n)%nat.
Proof.
  intros H n. unfold extract_features.
  rewrite H, move_features_return by (left; lia). reflexivity.
Qed.

End Determinism.

(* ===================================================================== *)
(** * The mobility floor: positions without legal moves *)
(* ===================================================================== *)

Module Floor.
Import Chess Features Differ Spec Positions Counting DifferProofs.








(** A stalemate: the black king h8 is not attacked, and each of g7, h7 and
    g8 is attacked once the king stands there. *)
Example stalemate_has_no_escape :
  valid_position stalemate = true
  /\ no_escape stalemate = true
  /\ pseudo_legal_moves stalemate
     = [mkMove 63 54 None; mkMove 63 55 None; mkMove 63 62 None]
  /\ is_check stalemate = false.
Proof. vm_compute. auto. Qed.

(** A position with a legal move has an escape, and a positive mobility. *)
Example start_has_escape :
  no_escape start = false /\ get_mobility start = 20.
Proof. vm_compute. auto. Qed.

End Floor.
